(** * Mood classifier service: decode, feature extraction, inference, assembly

    A shallow embedding of [app/jsdbk.py], [app/app.py] and
    [app/smart_playlist_enhanced_audio.py].  Python exceptions are values of
    [exn] threaded through a state-and-error monad over the file system;
    [librosa], [numpy], [sklearn] and the host operating system are
    interfaces (type classes) whose operations the source calls but does
    not define.  Floating point numbers are IEEE binary64 ([PrimFloat]). *)

From Stdlib Require Import ZArith String Ascii List Floats Uint63 Lia.
From stdpp Require Import base option gmap sets list strings pretty sorting.

Set Warnings "-register-all,-inexact-float,-clear-no-such-hyp".
Open Scope string_scope.
Open Scope Z_scope.

(** ** Exceptions *)

(** The exception classes the three modules raise, catch or let through.
    [LibraryError] stands for any [Exception] raised inside a library call
    (librosa, audioread, sklearn). *)
Inductive exn_kind : Type :=
| FileNotFoundError
| PermissionError
| UnpicklingError
| AttributeError
| TypeError
| ValueError
| IndexError
| ZeroDivisionError
| CalledProcessError
| LibraryError
| AudioDecodeError
| ModelLoadError
| HTTPException (status_code : Z).

(** An exception object: its class, [str(e)], and [e.__cause__] as set by
    [raise ... from e]. *)
Inductive exn : Type :=
| Exn (kind : exn_kind) (msg : string) (cause : option exn).

Definition exn_kind_of (e : exn) : exn_kind := let 'Exn k _ _ := e in k.
Definition str_exn (e : exn) : string := let 'Exn _ m _ := e in m.
Definition exn_cause (e : exn) : option exn := let 'Exn _ _ c := e in c.

Inductive result (A : Type) : Type :=
| Ok (a : A)
| Raise (e : exn).
Arguments Ok {A} a.
Arguments Raise {A} e.

Definition is_ok {A} (r : result A) : bool :=
  match r with Ok _ => true | Raise _ => false end.

Definition raises {A} (k : exn_kind) (r : result A) : Prop :=
  ∃ m c, r = Raise (Exn k m c).

Definition rbind {A B} (r : result A) (k : A → result B) : result B :=
  match r with Ok a => k a | Raise e => Raise e end.

(** ** The file system and the monad of host effects *)

Record file : Type := File { readable : bool; data : list Byte.byte }.

Abbreviation FS := (gmap string file).

Definition M (A : Type) : Type := FS → result A * FS.

Definition ret {A} (a : A) : M A := λ fs, (Ok a, fs).
Definition raise {A} (e : exn) : M A := λ fs, (Raise e, fs).
Definition bind {A B} (m : M A) (k : A → M B) : M B :=
  λ fs, match m fs with
        | (Ok a, fs') => k a fs'
        | (Raise e, fs') => (Raise e, fs')
        end.
Definition lift {A} (r : result A) : M A := λ fs, (r, fs).

(** [try: body except Exception as e: handler e] *)
Definition try_except {A} (body : M A) (handler : exn → M A) : M A :=
  λ fs, match body fs with
        | (Ok a, fs') => (Ok a, fs')
        | (Raise e, fs') => handler e fs'
        end.

(** [try: body finally: cleanup]; an exception of the cleanup replaces the
    outcome of the body. *)
Definition try_finally {A} (body : M A) (cleanup : M unit) : M A :=
  λ fs, let '(r, fs') := body fs in
        match cleanup fs' with
        | (Ok _, fs'') => (r, fs'')
        | (Raise e, fs'') => (Raise e, fs'')
        end.

Declare Scope py_scope.
Delimit Scope py_scope with py.
Notation "'let*' x ':=' m 'in' k" := (bind m (λ x, k))
  (at level 10, x name, m at level 100, k at level 200) : py_scope.
Notation "'let*' ' p ':=' m 'in' k" :=
  (bind m (λ x, match x with p => k end))
  (at level 10, p pattern, m at level 100, k at level 200) : py_scope.
Notation "'run' m 'then' k" := (bind m (λ _, k))
  (at level 10, m at level 100, k at level 200) : py_scope.

Definition os_path_exists (p : string) : M bool :=
  λ fs, (Ok (bool_decide (is_Some (fs !! p))), fs).

(** [os.remove]: deleting a path that does not exist raises. *)
Definition os_remove (p : string) : M unit :=
  λ fs, match fs !! p with
        | Some _ => (Ok tt, delete p fs)
        | None => (Raise (Exn FileNotFoundError p None), fs)
        end.

(** ** The host: decoder back end, temporary files, the transcoder *)

(** What [load_audio] asks of the machine it runs on.
    - [librosa_load fs p] is [librosa.load(p, duration=None, sr=22050,
      mono=True)]: the mono samples, or the exception of the back end; the
      rate it returns with them is the requested one, 22050;
    - [which_ffmpeg] says whether [shutil.which("ffmpeg")] finds the tool;
    - [mkstemp fs] is [tempfile.mkstemp(suffix=".wav")] followed by
      [os.close]: the name of the new file and the file system with it;
    - [ffmpeg fs src dst] is [subprocess.check_call(["ffmpeg", "-y", "-i",
      src, "-ar", "22050", "-ac", "1", dst])]: whatever the process did to
      the file system and, on a non-zero exit status, its exception. *)
Class Host : Type := {
  librosa_load : FS → string → result (list float);
  which_ffmpeg : bool;
  mkstemp : FS → string * FS;
  ffmpeg : FS → string → string → result unit * FS;
}.

Section LoadAudio.
Context `{Host}.
Open Scope py_scope.

(** The rate [load_audio] asks the decoder for, and gets back; being
    non-zero, the division [len(y) / sr] of the log line cannot raise. *)
Definition sr_22050 : Z := 22050.

Definition decode (p : string) : M (list float * Z) :=
  λ fs, (rbind (librosa_load fs p) (λ y, Ok (y, sr_22050)), fs).

Definition check_call_ffmpeg (src dst : string) : M unit :=
  λ fs, ffmpeg fs src dst.

Definition mkstemp_wav : M string :=
  λ fs, let '(p, fs') := mkstemp fs in (Ok p, fs').

Definition load_audio (audio_path : string) : M (list float * Z) :=
  try_except
    (decode audio_path)
    (λ e,
       if which_ffmpeg then
         let* tmpwav := mkstemp_wav in
         try_finally
           (try_except
              (run check_call_ffmpeg audio_path tmpwav then
               decode tmpwav)
              (λ e2,
                 raise (Exn AudioDecodeError
                          ("Audio decode failed after ffmpeg conversion: "
                             ++ str_exn e2)
                          (Some e2))))
           (let* b := os_path_exists tmpwav in
            if b then os_remove tmpwav else ret tt)
       else
         raise (Exn AudioDecodeError
                  "Audio decode failed: no suitable backend found (install ffmpeg)"
                  (Some e))).

End LoadAudio.

(** ** numpy *)

Instance result_ret : MRet result := @Ok.
Instance result_bind : MBind result := λ A B f r, rbind r f.

(** [float(n)] for an integer: exact below 2^53, which every length and
    sample rate here is. *)
Definition float_of_Z (z : Z) : float :=
  if z <? 0 then PrimFloat.opp (PrimFloat.of_uint63 (Uint63.of_Z (- z)))
  else PrimFloat.of_uint63 (Uint63.of_Z z).

Definition float_of_nat (n : nat) : float := float_of_Z (Z.of_nat n).

(** [a / b] on Python integers. *)
Definition py_truediv (a b : Z) : result float :=
  if decide (b = 0) then Raise (Exn ZeroDivisionError "division by zero" None)
  else Ok (PrimFloat.div (float_of_Z a) (float_of_Z b)).

(** [a[i]] on a sequence. *)
Definition py_index {A} (a : list A) (i : nat) : result A :=
  match a !! i with
  | Some x => Ok x
  | None => Raise (Exn IndexError "index out of range" None)
  end.

(** The arrays the code hands to [np.mean] and [np.std]: a vector of floats,
    a matrix of floats (one row per coefficient or band, one column per
    frame), a vector of frame indices. *)
Inductive ndarray : Type :=
| Arr1 (a : list float)
| Arr2 (a : list (list float))
| ArrI (a : list Z).

(** [np.mean] and [np.std] over all the elements of an array.  Both return a
    float for every array (nan, with a warning, for an empty one).

    [float_of_array a] is [float(a)] for a one-dimensional array [a].  What it
    does depends on the release of numpy: an array that does not hold exactly
    one element is refused with a [TypeError] by every release; an array of
    one element is converted to that element by the older releases (with a
    deprecation warning since 1.25) and refused with a [TypeError] by the
    newer ones. *)
Class Numpy : Type := {
  np_mean : ndarray → float;
  np_std : ndarray → float;
  float_of_array : list float → result float;
  float_of_array_one : ∀ t,
    float_of_array [t] = Ok t ∨ raises TypeError (float_of_array [t]);
  float_of_array_many : ∀ a,
    length a ≠ 1%nat → raises TypeError (float_of_array a);
}.

(** [np.diff] of a vector. *)
Fixpoint np_diff (a : list float) : list float :=
  match a with
  | x :: (y :: _) as t => PrimFloat.sub y x :: np_diff t
  | _ => []
  end.

Definition fmax_nan (a b : float) : float :=
  if PrimFloat.is_nan a then a
  else if PrimFloat.is_nan b then b
  else if PrimFloat.ltb a b then b else a.

(** [np.max] of a vector: an empty one has no maximum. *)
Definition np_max (a : list float) : result float :=
  match a with
  | [] => Raise (Exn ValueError
                   "zero-size array to reduction operation maximum which has no identity"
                   None)
  | x :: xs => Ok (fold_left fmax_nan xs x)
  end.

(** ** librosa *)

(** The tempo [beat_track] returns: a scalar, or (newer releases) an array. *)
Inductive tempo_t : Type :=
| TempoScalar (t : float)
| TempoArray (a : list float).

(** [float(tempo)]: a scalar converts to itself, an array as numpy decides. *)
Definition py_float `{Numpy} (tempo : tempo_t) : result float :=
  match tempo with
  | TempoScalar t => Ok t
  | TempoArray a => float_of_array a
  end.

(** The analysis routines, with the keyword arguments the source passes
    (where it passes none, the library's defaults are written out at the call).
    Every routine may raise.  Two facts of the library are part of the
    interface: [mfcc] returns [n_mfcc] rows, and [frames_to_time] converts
    frame by frame. *)
Class Librosa : Type := {
  beat_track : list float → Z → result (tempo_t * list Z);
  rms : list float → Z → Z → result (list (list float));
  spectral_centroid : list float → Z → result (list (list float));
  spectral_bandwidth : list float → Z → result (list (list float));
  zero_crossing_rate : list float → Z → Z → result (list (list float));
  spectral_rolloff : list float → Z → float → result (list (list float));
  mfcc : list float → Z → nat → Z → Z → result (list (list float));
  chroma_stft : list float → Z → Z → Z → result (list (list float));
  onset_strength : list float → Z → result (list float);
  onset_detect : list float → Z → result (list Z);
  spectral_contrast : list float → Z → Z → Z → result (list (list float));
  frames_to_time : list Z → Z → list float;
  mfcc_rows : ∀ y sr n_mfcc n_fft hop m,
    mfcc y sr n_mfcc n_fft hop = Ok m → length m = n_mfcc;
  frames_to_time_length : ∀ frames sr,
    length (frames_to_time frames sr) = length frames;
}.

(** ** Feature extraction *)

Section Features.
Context `{Librosa} `{Numpy}.

(** [try: ... except Exception as e: logger.error(...); raise] *)
Definition reraise {A} (r : result A) : result A :=
  match r with Ok a => Ok a | Raise e => Raise e end.

(** [extract_features_from_audio] of jsdbk.py; the result is the
    1 x 15 array [np.array([...]).reshape(1, -1)]. *)
Definition extract_features_from_audio (y : list float) (sr : Z)
  : result (list (list float)) :=
  duration_seconds ← py_truediv (Z.of_nat (length y)) sr;
  reraise (
    '(tempo, beats) ← beat_track y sr;
    rms_ ← rms y 2048 512;
    centroid ← spectral_centroid y sr;
    zcr ← zero_crossing_rate y 2048 512;
    rolloff ← spectral_rolloff y sr 0.85%float;
    mfccs ← mfcc y sr 13 2048 512;
    chroma ← chroma_stft y sr 2048 512;
    onset_env ← onset_strength y sr;
    contrast ← spectral_contrast y sr 2048 512;
    tempo_mean ← py_float tempo;
    mfccs_1 ← py_index mfccs 1;
    mfccs_2 ← py_index mfccs 2;
    Ok [[ tempo_mean;
          np_mean (Arr2 rms_);
          np_mean (Arr2 centroid);
          np_mean (Arr2 zcr);
          np_mean (Arr2 rolloff);
          np_mean (Arr1 mfccs_1);
          np_mean (Arr1 mfccs_2);
          np_mean (Arr2 chroma);
          np_mean (Arr1 onset_env);
          np_mean (Arr2 contrast);
          np_std (Arr1 onset_env);
          np_std (Arr2 rms_);
          np_std (Arr2 rolloff);
          np_std (Arr2 chroma);
          np_std (Arr1 onset_env) ]]).

(** The body of [extract_anti_overfitting_features] of
    smart_playlist_enhanced_audio.py, after [librosa.load] has returned
    the samples [y] at rate [sr]. *)
Definition anti_overfitting_features (y : list float) (sr : Z)
  : result (list float) :=
  '(tempo, beats) ← beat_track y sr;
  f0 ← py_float tempo;
  rms_ ← rms y 2048 512;
  spectral_centroids ← spectral_centroid y sr;
  zcr ← zero_crossing_rate y 2048 512;
  rolloff ← spectral_rolloff y sr 0.85%float;
  mfccs ← mfcc y sr 13 2048 512;
  mfccs_0 ← py_index mfccs 0;
  mfccs_1 ← py_index mfccs 1;
  chroma ← chroma_stft y sr 2048 512;
  onset_frames ← onset_detect y sr;
  contrast ← spectral_contrast y sr 2048 512;
  Ok [ f0;
       np_mean (Arr2 rms_);
       np_mean (Arr2 spectral_centroids);
       np_mean (Arr2 zcr);
       np_mean (Arr2 rolloff);
       np_mean (Arr1 mfccs_0);
       np_mean (Arr1 mfccs_1);
       np_mean (Arr2 chroma);
       (if bool_decide (0 < length onset_frames)%nat
        then float_of_nat (length onset_frames) else 0%float);
       np_mean (Arr2 contrast);
       (if bool_decide (1 < length beats)%nat
        then np_std (ArrI beats) else 0%float);
       np_std (Arr2 rms_);
       np_std (Arr2 rolloff);
       np_std (Arr2 chroma);
       (if bool_decide (1 < length beats)%nat
        then np_std (ArrI beats) else 0%float) ].

End Features.

(** [extract_anti_overfitting_features(audio_path)]: the file is decoded
    with [librosa.load(audio_path)] (22050 Hz, mono, whole file: the
    library's defaults); any exception is printed and turned into [None]. *)
Definition extract_anti_overfitting_features `{Host} `{Librosa} `{Numpy}
    (fs : FS) (audio_path : string) : option (list float) :=
  match y ← librosa_load fs audio_path; anti_overfitting_features y sr_22050 with
  | Ok features => Some features
  | Raise _ => None
  end.

(** ** The model bundle *)

(** A class label as the artifact stores it: a string or an integer. *)
Inductive label_item : Type :=
| LStr (s : string)
| LInt (z : Z).

(** [str(m)] *)
Definition py_str (m : label_item) : string :=
  match m with LStr s => s | LInt z => pretty z end.

(** A value that may sit where labels are expected: [None], a string, an
    iterable that is not a string (list, tuple, array) with its items, an
    object that has [__iter__] and raises a [TypeError] when it is iterated
    (a numpy array of dimension zero), or any other object, which has no
    [__iter__] and of which only its truth value matters. *)
Inductive pylabels : Type :=
| PNone
| PStr (s : string)
| PIter (items : list label_item)
| PUniterable
| POther (truthy : bool).

Record classifier_obj : Type := Classifier {
  predict : list (list float) → result (list label_item);
  predict_proba : list (list float) → result (list (list float));
  (** [getattr(classifier, "classes_", None)]: [PNone] when the attribute is absent *)
  classes_ : pylabels;
}.

Record scaler_obj : Type := Scaler {
  transform : list (list float) → result (list (list float));
}.

(** The values of the pickled dictionary. *)
Inductive pyval : Type :=
| VLabels (l : pylabels)
| VClassifier (c : classifier_obj)
| VScaler (s : scaler_obj).

(** What [pickle.load] returns: a dict, or something else. *)
Inductive pickled : Type :=
| PkDict (d : gmap string pyval)
| PkOther (v : pyval).

Class Pickle : Type := {
  pickle_load : list Byte.byte → result pickled;
}.

(** [open(path, "rb")] followed by reading the whole file. *)
Definition open_rb (fs : FS) (path : string) : result (list Byte.byte) :=
  match fs !! path with
  | None => Raise (Exn FileNotFoundError
                     ("[Errno 2] No such file or directory: '" ++ path ++ "'") None)
  | Some f =>
      if readable f then Ok (data f)
      else Raise (Exn PermissionError
                    ("[Errno 13] Permission denied: '" ++ path ++ "'") None)
  end.

(** The [AttributeError] of [v.name].  Its text begins with the class of
    [v] in quotes; the classes of the estimators and of the containers are
    not part of the model, and for them the text begins at [object]. *)
Definition type_name (v : pyval) : option string :=
  match v with
  | VLabels PNone => Some "NoneType"
  | VLabels (PStr _) => Some "str"
  | _ => None
  end.

Definition no_attribute {A} (v : pyval) (name : string) : result A :=
  Raise (Exn AttributeError
           (match type_name v with
            | Some t => "'" ++ t ++ "' object"
            | None => "object"
            end ++ " has no attribute '" ++ name ++ "'") None).

(** [bundle.get(key)] *)
Definition bundle_get (bundle : pickled) (key : string) : result pyval :=
  match bundle with
  | PkDict d => Ok (default (VLabels PNone) (d !! key))
  | PkOther v => no_attribute v "get"
  end.

(** The module variable [MOODS] on its way through lines 33 to 48: [None],
    a string left as it was found, a list of strings, or another
    object left as it was found. *)
Inductive moods_val : Type :=
| MNone
| MStr (s : string)
| MList (l : list string)
| MOther (truthy : bool).

(** A bundle field, seen as candidate labels. *)
Definition labels_of_pyval (v : pyval) : pylabels :=
  match v with
  | VLabels l => l
  | VClassifier _ | VScaler _ => POther true
  end.

(** Lines 39-40: a value that has [__iter__] and is not a string becomes a
    list of strings; the comprehension raises when the value cannot be
    iterated after all. *)
Definition stringify_iterable (v : pylabels) : result moods_val :=
  match v with
  | PNone => Ok MNone
  | PStr s => Ok (MStr s)
  | PIter items => Ok (MList (map py_str items))
  | PUniterable => Raise (Exn TypeError "iteration over a 0-d array" None)
  | POther b => Ok (MOther b)
  end.

(** A string is held as the bytes of its UTF-8 encoding, a character of
    Python being one code point: a byte [10xxxxxx] continues the character
    begun before it. *)
Definition is_continuation (c : ascii) : bool :=
  match c with
  | Ascii _ _ _ _ _ _ false true => true
  | _ => false
  end.

Definition starts_with_continuation (s : string) : bool :=
  match s with
  | String c _ => is_continuation c
  | EmptyString => false
  end.

(** The characters of a string, each as a string. *)
Fixpoint chars (s : string) : list string :=
  match s with
  | EmptyString => []
  | String c s' =>
      match chars s' with
      | h :: t =>
          if starts_with_continuation s' then String c h :: t
          else String c EmptyString :: h :: t
      | [] => [String c EmptyString]
      end
  end.

(** [[str(m) for m in v]] for a value that is not [None]. *)
Definition str_each (v : pylabels) : result (list string) :=
  match v with
  | PIter items => Ok (map py_str items)
  | PStr s => Ok (chars s)
  | PUniterable => Raise (Exn TypeError "iteration over a 0-d array" None)
  | PNone | POther _ =>
      Raise (Exn TypeError "object is not iterable" None)
  end.

(** [getattr(classifier, "classes_", None)] *)
Definition getattr_classes_ (classifier : pyval) : pylabels :=
  match classifier with
  | VClassifier c => classes_ c
  | VLabels _ | VScaler _ => PNone
  end.

(** [MOODS is None or (isinstance(MOODS, list) and len(MOODS) == 0)] *)
Definition none_or_empty_list (m : moods_val) : bool :=
  match m with
  | MNone | MList [] => true
  | _ => false
  end.

Inductive log_record : Type :=
| LogInfo (fmt : string)
| LogWarning (fmt : string)
| LogError (fmt : string).

Definition default_moods : list string := ["calm"; "energetic"; "happy"; "sad"].

(** What importing jsdbk.py leaves behind. *)
Record module_state : Type := ModuleState {
  classifier : pyval;
  scaler : pyval;
  MOODS : moods_val;
  log : list log_record;
}.

(** [Path(__file__).parent / "models" / "anti_overfitting_mood_classifier.pkl"] *)
Definition MODEL_PATH (here : string) : string :=
  here ++ "/models/anti_overfitting_mood_classifier.pkl".

(** Lines 33-51 of jsdbk.py: label resolution, given the unpickled bundle
    and the classifier taken from it. *)
Definition resolve_moods (bundle : pickled) (classifier : pyval)
  : result (moods_val * list log_record) :=
  let MOODS := MNone in
  MOODS ←
    match bundle with
    | PkDict d =>
        let MOODS := labels_of_pyval (default (VLabels PNone) (d !! "classes")) in
        let MOODS :=
          match MOODS with
          | PNone => labels_of_pyval (default (VLabels PNone) (d !! "moods"))
          | _ => MOODS
          end in
        stringify_iterable MOODS
    | PkOther _ => Ok MOODS
    end;
  MOODS ←
    (if none_or_empty_list MOODS then
       match getattr_classes_ classifier with
       | PNone => Ok MNone
       | raw => l ← str_each raw; Ok (MList l)
       end
     else Ok MOODS);
  if none_or_empty_list MOODS then
    Ok (MList default_moods,
        [LogWarning "Model moods not found in bundle; falling back to default labels %s";
         LogInfo "Loaded moods: %s"])
  else
    Ok (MOODS, [LogInfo "Loaded moods: %s"]).

(** Importing jsdbk.py: lines 24-51, run once at process start. *)
Definition import_jsdbk `{Pickle} (here : string) (fs : FS) : result module_state :=
  f ← open_rb fs (MODEL_PATH here);
  bundle ← pickle_load f;
  classifier ← bundle_get bundle "model";
  scaler ← bundle_get bundle "scaler";
  '(MOODS, log) ← resolve_moods bundle classifier;
  Ok (ModuleState classifier scaler MOODS log).

(** [set(MOODS or [])] *)
Definition loaded_set (m : moods_val) : result (gset string) :=
  match m with
  | MNone => Ok ∅
  | MList l => Ok (list_to_set l)
  | MStr s => Ok (list_to_set (chars s))
  | MOther false => Ok ∅
  | MOther true => Raise (Exn TypeError "object is not iterable" None)
  end.

Definition required_default : gset string :=
  {[ "happy"; "calm"; "energetic"; "sad" ]}.

(** [repr(s)] of a string.  The quotes are single ones, unless the string
    holds a single quote and no double quote.  A backslash, the chosen quote,
    a newline, a carriage return and a tab are written with a backslash
    before them, the other control characters of ASCII as [\xNN].
    Characters outside ASCII are kept as they are (Python keeps the
    printable ones). *)
Definition backslash : ascii := "092"%char.
Definition single_quote : ascii := "039"%char.
Definition double_quote : ascii := "034"%char.

Definition escaped (c : ascii) : string := String backslash (String c EmptyString).

Definition hex_digit (n : nat) : ascii :=
  default "0"%char (list_ascii_of_string "0123456789abcdef" !! n).

Definition repr_char (quote c : ascii) : string :=
  let n := nat_of_ascii c in
  if bool_decide (c = backslash) then escaped backslash
  else if bool_decide (c = quote) then escaped quote
  else if bool_decide (n = 10%nat) then escaped "n"%char
  else if bool_decide (n = 13%nat) then escaped "r"%char
  else if bool_decide (n = 9%nat) then escaped "t"%char
  else if bool_decide (n < 32 ∨ n = 127)%nat then
    String backslash
      (String "x"%char
         (String (hex_digit (n / 16)) (String (hex_digit (n mod 16)) EmptyString)))
  else String c EmptyString.

Definition py_repr (s : string) : string :=
  let l := list_ascii_of_string s in
  let quote :=
    if bool_decide (single_quote ∈ l) && negb (bool_decide (double_quote ∈ l))
    then double_quote else single_quote in
  String quote (String.concat EmptyString (map (repr_char quote) l))
    ++ String quote EmptyString.

(** [repr] of a list of strings, as [f"{sorted(...)}"] prints it. *)
Definition repr_list (l : list string) : string :=
  "[" ++ String.concat ", " (map py_repr l) ++ "]".

Definition string_le (a b : string) : Prop := String.leb a b = true.
Instance string_le_dec a b : Decision (string_le a b) :=
  decide (String.leb a b = true).

(** [verify_model_moods(required)] against the loaded module. *)
Definition verify_model_moods (st : module_state) (required : option (list string))
  : result bool :=
  let required : gset string :=
    match required with
    | None => required_default
    | Some r => list_to_set r
    end in
  loaded ← loaded_set (MOODS st);
  if bool_decide (required ⊆ loaded) then Ok true
  else Raise (Exn ModelLoadError
                ("Model moods missing required labels: "
                   ++ repr_list (merge_sort string_le (elements (required ∖ loaded))))
                None).

(** ** Prediction *)

(** A Python [dict] with string keys: entries in insertion order, one per
    key; storing under a key already present replaces its value in place. *)
Definition pydict (V : Type) : Type := list (string * V).

Fixpoint dict_set {V} (k : string) (v : V) (d : pydict V) : pydict V :=
  match d with
  | [] => [(k, v)]
  | (k', v') :: d' =>
      if decide (k = k') then (k, v) :: d' else (k', v') :: dict_set k v d'
  end.

(** [dict(pairs)] *)
Definition dict_of {V} (pairs : list (string * V)) : pydict V :=
  fold_left (λ d kv, dict_set kv.1 kv.2 d) pairs [].

Definition dict_keys {V} (d : pydict V) : list string := d.*1.
Definition dict_values {V} (d : pydict V) : list V := d.*2.

(** The ["audio_features"] dictionary of the result. *)
Record audio_features_t : Type := AudioFeatures {
  af_tempo : float;
  af_tempo_variance : float;
  af_energy : float;
  af_energy_variance : float;
  af_spectral_centroid : float;
  af_spectral_bandwidth : float;
  af_zero_crossing_rate : float;
  af_valence : float;
  af_duration : float;
}.

(** The dictionary [predict_mood] returns. *)
Record prediction : Type := Prediction {
  mood : string;
  probabilities : pydict float;
  audio_features : audio_features_t;
}.

(** [scaler.transform(x)] *)
Definition call_transform (scaler : pyval) (x : list (list float))
  : result (list (list float)) :=
  match scaler with
  | VScaler s => transform s x
  | VLabels _ | VClassifier _ => no_attribute scaler "transform"
  end.

(** [classifier.predict(x)] *)
Definition call_predict (classifier : pyval) (x : list (list float))
  : result (list label_item) :=
  match classifier with
  | VClassifier c => predict c x
  | VLabels _ | VScaler _ => no_attribute classifier "predict"
  end.

(** [classifier.predict_proba(x)] *)
Definition call_predict_proba (classifier : pyval) (x : list (list float))
  : result (list (list float)) :=
  match classifier with
  | VClassifier c => predict_proba c x
  | VLabels _ | VScaler _ => no_attribute classifier "predict_proba"
  end.

(** [list(MOODS)] *)
Definition py_list (m : moods_val) : result (list string) :=
  match m with
  | MList l => Ok l
  | MStr s => Ok (chars s)
  | MNone | MOther _ => Raise (Exn TypeError "object is not iterable" None)
  end.

Section PredictMood.
Context `{Host} `{Librosa} `{Numpy}.
Variable st : module_state.
Open Scope py_scope.

(** Lines 221-230: the labels the probabilities are zipped with. *)
Definition aligned_labels (probs : list float) : result (list string) :=
  labels ← py_list (MOODS st);
  if bool_decide (length probs ≠ length labels) then
    match getattr_classes_ (classifier st) with
    | PNone => Ok labels
    | raw => str_each raw
    end
  else Ok labels.

(** [predict_mood] of jsdbk.py. *)
Definition predict_mood (audio_path : string) : M prediction :=
  try_except
    (let* '(y, sr) := load_audio audio_path in
     lift (
       song_duration ← py_truediv (Z.of_nat (length y)) sr;
       features_array ← extract_features_from_audio y sr;
       features_scaled ← call_transform (scaler st) features_array;
       predicted ← call_predict (classifier st) features_scaled;
       mood ← py_index predicted 0;
       proba ← call_predict_proba (classifier st) features_scaled;
       probs ← py_index proba 0;
       max_prob ← np_max probs;
       '(tempo, beats) ← beat_track y sr;
       let tempo_value :=
         match tempo with
         | TempoScalar t => t                  (* np.isscalar: float(tempo) *)
         | TempoArray a => np_mean (Arr1 a)    (* float(np.mean(tempo)) *)
         end in
       let tempo_variance :=
         if bool_decide (1 < length beats)%nat then
           let beat_times := frames_to_time beats sr in
           let beat_intervals := np_diff beat_times in
           if bool_decide (0 < length beat_intervals)%nat
           then PrimFloat.mul (np_std (Arr1 beat_intervals)) 60%float
           else 0%float
         else 0%float in
       rms_ ← rms y 2048 512;
       let energy := np_mean (Arr2 rms_) in
       let energy_variance := np_std (Arr2 rms_) in
       centroid ← spectral_centroid y sr;
       bandwidth ← spectral_bandwidth y sr;
       zcr ← zero_crossing_rate y 2048 512;
       labels ← aligned_labels probs;
       nyquist ← py_truediv sr 2;
       Ok {| mood := py_str mood;
             probabilities := dict_of (zip labels probs);
             audio_features :=
               {| af_tempo := tempo_value;
                  af_tempo_variance := tempo_variance;
                  af_energy := energy;
                  af_energy_variance := energy_variance;
                  af_spectral_centroid := np_mean (Arr2 centroid);
                  af_spectral_bandwidth := np_mean (Arr2 bandwidth);
                  af_zero_crossing_rate := np_mean (Arr2 zcr);
                  af_valence := PrimFloat.div (np_mean (Arr2 centroid)) nyquist;
                  af_duration := song_duration |} |}))
    (λ e, raise e).

End PredictMood.

(** ** The HTTP endpoint (app.py) *)

Module App.
Section Endpoint.
Context `{Host} `{Librosa} `{Numpy}.
Variable st : module_state.
Open Scope py_scope.

Record UploadFile : Type := Upload {
  content_type : option string;
  filename : string;
  file_data : list Byte.byte;
}.

Definition temp_path : string := "temp_audio".

(** [with open(path, "wb") as buffer: shutil.copyfileobj(file.file, buffer)];
    the working directory is taken to be writable. *)
Definition write_file (path : string) (d : list Byte.byte) : M unit :=
  λ fs, (Ok tt, <[path := File true d]> fs).

(** [s.startswith(p)] *)
Definition startswith (s p : string) : bool := String.prefix p s.

(** [s.endswith(suffix)] *)
Fixpoint endswith (s suffix : string) : bool :=
  if String.eqb s suffix then true
  else match s with
       | EmptyString => false
       | String _ s' => endswith s' suffix
       end.

Definition lower_ascii (c : ascii) : ascii :=
  let n := nat_of_ascii c in
  if bool_decide (65 ≤ n ∧ n ≤ 90)%nat then ascii_of_nat (n + 32) else c.

(** [s.lower()] on the bytes of [s].  Only A-Z change; no character outside
    ASCII lowers to one of the letters of the five suffixes below, so what
    [endswith] then answers is what Python answers. *)
Fixpoint lower (s : string) : string :=
  match s with
  | EmptyString => EmptyString
  | String c s' => String (lower_ascii c) (lower s')
  end.

Definition audio_extensions : list string :=
  [".wav"; ".mp3"; ".ogg"; ".flac"; ".m4a"].

(** [predict] of app.py, the handler of [POST /predict].  A file part always
    carries a file name; its content type may be missing. *)
Definition predict (file : UploadFile) : M prediction :=
  try_finally
    (try_except
       (let is_audio_mime :=
          match content_type file with
          | Some ct => startswith ct "audio/"
          | None => false
          end in
        let is_octet :=
          bool_decide (content_type file = Some "application/octet-stream") in
        let has_audio_ext :=
          existsb (endswith (lower (filename file))) audio_extensions in
        if negb (is_audio_mime || is_octet || has_audio_ext) then
          raise (Exn (HTTPException 400) "Unsupported audio format" None)
        else
          run write_file temp_path (file_data file) then
          predict_mood st temp_path)
       (λ e,
          match exn_kind_of e with
          | AudioDecodeError => raise (Exn (HTTPException 415) (str_exn e) None)
          | HTTPException _ => raise e
          | _ => raise (Exn (HTTPException 500) (str_exn e) None)
          end))
    (let* b := os_path_exists temp_path in
     if b then os_remove temp_path else ret tt).

End Endpoint.
End App.

(** ** The second service (smart_playlist_enhanced_audio.py) *)

Module Enhanced.

(** What the module asks of the interpreter and of the operating system
    beyond the exception classes above: the [KeyError] of a missing
    dictionary key, whose text is the quoted key; for an unpickled object
    that is neither a dictionary nor [None], its truth value and the
    exception its subscript raises; and the exception of
    [open(path, "wb")] when the file cannot be created (the path is built
    from the name the client sent). *)
Class Python : Type := {
  key_error : string → exn;
  truth_of : pyval → result bool;
  subscript_error : pyval → exn;
  open_wb_error : FS → string → option exn;
  key_error_str : ∀ k, str_exn (key_error k) = "'" ++ k ++ "'";
}.

(** [PredictionResponse(mood=...)]: pydantic's validation of the [mood: str]
    field; a string is accepted as it is. *)
Class Pydantic : Type := {
  validate_str : label_item → result string;
  validate_str_str : ∀ s, validate_str (LStr s) = Ok s;
}.

Instance label_item_eq_dec : EqDecision label_item.
Proof. solve_decision. Defined.

(** The module globals [model_data] and [model_path]; Python's [None] is
    [PkOther (VLabels PNone)] for the first and [None] for the second. *)
Record globals : Type := Globals {
  model_data : pickled;
  model_path : option string;
}.

Definition py_None : pickled := PkOther (VLabels PNone).

Definition initial_globals : globals := Globals py_None None.

(** [model_data is not None] *)
Definition is_not_None (md : pickled) : bool :=
  match md with
  | PkOther (VLabels PNone) => false
  | _ => true
  end.

Definition none_not_subscriptable {A} : result A :=
  Raise (Exn TypeError "'NoneType' object is not subscriptable" None).

(** A dictionary with label keys (strings or integers), as [mood_percentages]. *)
Definition ldict (V : Type) : Type := list (label_item * V).

Fixpoint ldict_set {V} (k : label_item) (v : V) (d : ldict V) : ldict V :=
  match d with
  | [] => [(k, v)]
  | (k', v') :: d' =>
      if decide (k = k') then (k, v) :: d' else (k', v') :: ldict_set k v d'
  end.

(** [np.argmax] of a vector of floats: the first maximum, a nan counting as
    larger than every number; an empty vector has none. *)
Fixpoint argmax_scan (mp : float) (best i : nat) (rest : list float) : nat :=
  match rest with
  | [] => best
  | x :: rest' =>
      if PrimFloat.leb x mp then argmax_scan mp best (S i) rest'
      else if PrimFloat.is_nan x then i
      else argmax_scan x i (S i) rest'
  end.

Definition np_argmax (a : list float) : result nat :=
  match a with
  | [] => Raise (Exn ValueError "attempt to get argmax of an empty sequence" None)
  | x :: xs => Ok (if PrimFloat.is_nan x then 0%nat else argmax_scan x 0 1 xs)
  end.

(** The dictionary returned by [health_check]. *)
Record health : Type := Health {
  h_status : string;
  h_service : string;
  h_model_loaded : bool;
  h_model_path : option string;
  h_features : option pyval;
  h_classes : option (list label_item);
  h_timestamp : float;
}.

(** The [PredictionResponse] of the endpoint. *)
Record PredictionResponse : Type := Response {
  r_mood : string;
  r_confidence : float;
  r_mood_percentages : ldict float;
  r_tempo : float;
  r_energy : float;
  r_audio_features : list (string * float);
}.

Section Service.
Context `{Host} `{Librosa} `{Numpy} `{Pickle} `{Python} `{Pydantic}.
Open Scope py_scope.

(** [model_data[key]] *)
Definition getitem (md : pickled) (key : string) : result pyval :=
  match md with
  | PkDict d =>
      match d !! key with
      | Some v => Ok v
      | None => Raise (key_error key)
      end
  | PkOther (VLabels PNone) => none_not_subscriptable
  | PkOther v => Raise (subscript_error v)
  end.

(** The items of [model_data['classes']] when it is iterated over. *)
Definition iter_items (classes : pyval) : result (list label_item) :=
  match classes with
  | VLabels (PIter items) => Ok items
  | VLabels (PStr s) => Ok (map LStr (chars s))
  | VLabels PUniterable =>
      Raise (Exn TypeError "iteration over a 0-d array" None)
  | VLabels PNone | VLabels (POther _) | VClassifier _ | VScaler _ =>
      Raise (Exn TypeError "object is not iterable" None)
  end.

(** [model_data['classes'][mood_idx]] *)
Definition class_at (classes : pyval) (mood_idx : nat) : result label_item :=
  match classes with
  | VLabels (PIter items) => py_index items mood_idx
  | VLabels (PStr s) => py_index (map LStr (chars s)) mood_idx
  | VLabels PNone => none_not_subscriptable
  | v => Raise (subscript_error v)
  end.

(** [load_model()]: the new globals, and the exception if it raised. *)
Definition load_model (here : string) (fs : FS) (g : globals)
  : result unit * globals :=
  let path := MODEL_PATH here in
  let g := Globals (model_data g) (Some path) in
  if bool_decide (is_Some (fs !! path)) then
    match f ← open_rb fs path; pickle_load f with
    | Raise e => (Raise e, g)
    | Ok md =>
        (features ← getitem md "features";
         classes ← getitem md "classes";
         items ← iter_items classes;
         Ok tt,
         Globals md (Some path))
    end
  else
    (Raise (Exn FileNotFoundError
              ("anti_overfitting_mood_classifier.pkl not found: " ++ path) None),
     g).

(** [startup_event()]: whatever [load_model] raises is printed and dropped. *)
Definition startup_event (here : string) (fs : FS) (g : globals) : globals :=
  (load_model here fs g).2.

(** [bool(model_data)] *)
Definition truth (md : pickled) : result bool :=
  match md with
  | PkDict d => Ok (negb (bool_decide (d = ∅)))
  | PkOther (VLabels PNone) => Ok false
  | PkOther v => truth_of v
  end.

(** [health_check()], at the time [now]. *)
Definition health_check (g : globals) (now : float) : result health :=
  let model_loaded := is_not_None (model_data g) in
  has_features ← truth (model_data g);
  features ← (if has_features : bool
              then v ← getitem (model_data g) "features"; Ok (Some v)
              else Ok None);
  has_classes ← truth (model_data g);
  classes ← (if has_classes : bool
             then v ← getitem (model_data g) "classes";
                  items ← iter_items v; Ok (Some items)
             else Ok None);
  Ok {| h_status := "ok";
        h_service := "Python ML Service - Anti-Overfitting Model";
        h_model_loaded := model_loaded;
        h_model_path := model_path g;
        h_features := features;
        h_classes := classes;
        h_timestamp := now |}.

(** The loop filling [mood_percentages]. *)
Fixpoint fill_percentages (i : nat) (classes : list label_item)
    (mood_probs : list float) (d : ldict float) : result (ldict float) :=
  match classes with
  | [] => Ok d
  | mood_class :: rest =>
      p ← py_index mood_probs i;
      fill_percentages (S i) rest mood_probs (ldict_set mood_class p d)
  end.

(** The ["feature_0"] ... ["feature_14"] entries of the response. *)
Definition feature_entries (features : list float) : result (list (string * float)) :=
  mapM (λ i, f ← py_index features i; Ok ("feature_" ++ pretty i, f)) (seq 0 15).

(** The body of the endpoint between the feature extraction and the
    removal of the temporary file. *)
Definition respond (md : pickled) (temp_path : string) (features : list float)
  : M PredictionResponse :=
  λ fs,
    (scaler ← getitem md "scaler";
     scaled ← call_transform scaler [features];
     features_scaled ← py_index scaled 0;
     model ← getitem md "model";
     proba ← call_predict_proba model [features_scaled];
     mood_probs ← py_index proba 0;
     mood_idx ← np_argmax mood_probs;
     classes ← getitem md "classes";
     predicted_mood ← class_at classes mood_idx;
     confidence ← py_index mood_probs mood_idx;
     classes ← getitem md "classes";
     items ← iter_items classes;
     mood_percentages ← fill_percentages 0 items mood_probs [];
     y ← librosa_load fs temp_path;
     '(tempo, _) ← beat_track y sr_22050;
     rms_ ← rms y 2048 512;
     let energy := np_mean (Arr2 rms_) in
     tempo_value ← py_float tempo;
     audio_features ← feature_entries features;
     mood ← validate_str predicted_mood;
     Ok {| r_mood := mood;
           r_confidence := confidence;
           r_mood_percentages := mood_percentages;
           r_tempo := tempo_value;
           r_energy := energy;
           r_audio_features := audio_features |},
     fs).

(** [with open(temp_path, "wb") as buffer: buffer.write(await file.read())] *)
Definition store_upload (temp_path : string) (content : list Byte.byte) : M unit :=
  λ fs, match open_wb_error fs temp_path with
        | Some e => (Raise e, fs)
        | None => (Ok tt, <[temp_path := File true content]> fs)
        end.

Definition cleanup (temp_path : string) : M unit :=
  let* b := os_path_exists temp_path in
  if b then os_remove temp_path else ret tt.

(** [predict_mood], the handler of [POST /predict] of this service.  The
    upload is stored under a name built from the file name the client sent. *)
Definition predict_mood (md : pickled) (file : App.UploadFile)
  : M PredictionResponse :=
  let temp_path := "temp_" ++ App.filename file in
  try_except
    (run store_upload temp_path (App.file_data file) then
     let* features :=
       (λ fs, (Ok (extract_anti_overfitting_features fs temp_path), fs)) in
     match features with
     | None => raise (Exn (HTTPException 400) "Feature extraction failed" None)
     | Some features =>
         let* response := respond md temp_path features in
         run os_remove temp_path then
         ret response
     end)
    (λ e,
       match exn_kind_of e with
       | HTTPException _ =>
           run cleanup temp_path then raise e
       | _ =>
           run cleanup temp_path then
           raise (Exn (HTTPException 500)
                    ("Prediction failed: " ++ str_exn e) None)
       end).

End Service.
End Enhanced.

(** ** A small executable world

    Stand-ins for the interfaces, used to run the definitions above on
    concrete inputs. *)

Module Sample.

Definition fsum (a : list float) : float := fold_left PrimFloat.add a 0%float.

Definition flatten (a : ndarray) : list float :=
  match a with
  | Arr1 a => a
  | Arr2 a => concat a
  | ArrI a => map float_of_Z a
  end.

Definition mean_of (a : list float) : float :=
  PrimFloat.div (fsum a) (float_of_nat (length a)).

Definition std_of (a : list float) : float :=
  let m := mean_of a in
  PrimFloat.sqrt
    (mean_of (map (λ x, PrimFloat.mul (PrimFloat.sub x m) (PrimFloat.sub x m)) a)).

(** numpy as its older releases are: an array of one element converts. *)
Definition numpy : Numpy.
Proof.
  refine {|
    np_mean a := mean_of (flatten a);
    np_std a := std_of (flatten a);
    float_of_array a :=
      match a with
      | [t] => Ok t
      | _ => Raise (Exn TypeError
                      "only length-1 arrays can be converted to Python scalars" None)
      end;
  |}.
  - intros t. by left.
  - intros [|t [|t' a]] Hlen; try done; by eexists _, _.
Defined.

(** numpy as its newer releases are: only an array of dimension zero converts. *)
Definition strict_numpy : Numpy.
Proof.
  refine {|
    np_mean a := mean_of (flatten a);
    np_std a := std_of (flatten a);
    float_of_array _ :=
      Raise (Exn TypeError
               "only 0-dimensional arrays can be converted to Python scalars" None);
  |}.
  - intros t. right. by eexists _, _.
  - intros a _. by eexists _, _.
Defined.

Definition one_row (y : list float) : result (list (list float)) :=
  match y with
  | [] => Raise (Exn LibraryError "empty signal" None)
  | _ => Ok [y]
  end.

Definition mfcc_rows_of (y : list float) (n_mfcc : nat) : list (list float) :=
  map (λ i, map (PrimFloat.mul (float_of_nat i)) y) (seq 0 n_mfcc).

Definition times_of (frames : list Z) (sr : Z) : list float :=
  map (λ f, PrimFloat.div (float_of_Z (f * 512)) (float_of_Z sr)) frames.

Definition beats_of (y : list float) : list Z :=
  map (λ i, Z.of_nat (i * i) * 43) (seq 0 (length y)).

(** An analysis library that reports the given tempo. *)
Definition librosa_with (tempo : tempo_t) : Librosa.
Proof.
  refine {|
    beat_track y sr := Ok (tempo, beats_of y);
    rms y _ _ := one_row (map PrimFloat.abs y);
    spectral_centroid y _ := one_row (map (PrimFloat.mul 1000%float) y);
    spectral_bandwidth y _ := one_row (map (PrimFloat.mul 500%float) y);
    zero_crossing_rate y _ _ := one_row (map (PrimFloat.mul 0.5%float) y);
    spectral_rolloff y _ p := one_row (map (PrimFloat.mul p) y);
    mfcc y _ n_mfcc _ _ := Ok (mfcc_rows_of y n_mfcc);
    chroma_stft y _ _ _ := one_row y;
    onset_strength y _ := Ok (map PrimFloat.abs y);
    onset_detect y _ := Ok (beats_of y);
    spectral_contrast y _ _ _ := one_row (map (PrimFloat.add 1%float) y);
    frames_to_time := times_of;
  |}.
  - intros y sr n n_fft hop m [= <-]. unfold mfcc_rows_of.
    rewrite length_map. apply length_seq.
  - intros frames sr. apply length_map.
Defined.

(** librosa as its older releases are: the tempo is a scalar. *)
Definition librosa : Librosa := librosa_with (TempoScalar 120%float).

(** librosa as its newer releases are: the tempo is an array of one element. *)
Definition array_tempo_librosa : Librosa := librosa_with (TempoArray [120%float]).

(** A file decodes when it is readable and starts with the letter R. *)
Definition decode_file (fs : FS) (p : string) : result (list float) :=
  match fs !! p with
  | Some (File true (Byte.x52 :: _)) => Ok [0.5%float; (-0.25)%float; 1%float]
  | _ => Raise (Exn LibraryError "could not decode" None)
  end.

Definition tmp_name : string := "/tmp/tmpk3v9.wav".

(** A host whose transcoder writes its output and then exits with the
    given status. *)
Definition host (have_ffmpeg exit_ok : bool) : Host :=
  {| librosa_load := decode_file;
     which_ffmpeg := have_ffmpeg;
     mkstemp fs := (tmp_name, <[tmp_name := File true []]> fs);
     ffmpeg fs src dst :=
       (if exit_ok then Ok tt
        else Raise (Exn CalledProcessError
                      "Command 'ffmpeg' returned non-zero exit status 1." None),
        <[dst := File true [Byte.x52]]> fs) |}.

Definition wav_file : file := File true [Byte.x52; Byte.x49; Byte.x46; Byte.x46].
Definition mp3_file : file := File true [Byte.xff; Byte.xfb].

Definition four_probs : list float :=
  [0.125%float; 0.5%float; 0.25%float; 0.125%float].

Definition the_classifier (own_classes : pylabels) : classifier_obj :=
  {| predict _ := Ok [LStr "energetic"];
     predict_proba _ := Ok [four_probs];
     classes_ := own_classes |}.

Definition the_scaler : scaler_obj := {| transform x := Ok x |}.

Definition four_labels : pylabels :=
  PIter [LStr "calm"; LStr "energetic"; LStr "happy"; LStr "sad"].

Definition bundle_of (classes moods own_classes : pylabels) : pickled :=
  PkDict (<["classes" := VLabels classes]>
         (<["moods" := VLabels moods]>
         (<["model" := VClassifier (the_classifier own_classes)]>
         (<["scaler" := VScaler the_scaler]> ∅)))).

Definition pickle (b : pickled) : Pickle := {| pickle_load _ := Ok b |}.

Definition state (labels : list string) (own_classes : pylabels) : module_state :=
  {| classifier := VClassifier (the_classifier own_classes);
     scaler := VScaler the_scaler;
     MOODS := MList labels;
     log := [] |}.

(** Stand-ins for the interfaces of the second service.  The exception
    classes above do not list [KeyError]; here [IndexError], its sibling
    under [LookupError], carries the text. *)
Definition python : Enhanced.Python.
Proof.
  refine {|
    Enhanced.key_error k := Exn IndexError ("'" ++ k ++ "'") None;
    Enhanced.truth_of _ := Ok true;
    Enhanced.subscript_error _ :=
      Exn TypeError "object is not subscriptable" None;
    Enhanced.open_wb_error _ _ := None;
  |}; done.
Defined.

Definition pydantic : Enhanced.Pydantic.
Proof.
  refine {|
    Enhanced.validate_str m :=
      match m with LStr s => Ok s | LInt z => Ok (pretty z) end;
  |}; done.
Defined.

Definition enhanced_bundle : pickled :=
  PkDict (<["features" := VLabels (POther true)]>
         (<["classes" := VLabels four_labels]>
         (<["model" := VClassifier (the_classifier four_labels)]>
         (<["scaler" := VScaler the_scaler]> ∅)))).

End Sample.

(** * Vocabulary of the statements *)

(** [sum(values)] lies within 1e-3 of 1.0. *)
Definition sums_to_one (values : list float) : Prop :=
  PrimFloat.leb
    (PrimFloat.abs
       (PrimFloat.sub (fold_left PrimFloat.add values 0%float) 1%float))
    0.001%float = true.

(** A test that tells two concrete floats apart. *)
Definition same_float (a b : option float) : bool :=
  match a, b with
  | Some x, Some y => PrimFloat.eqb x y
  | None, None => true
  | _, _ => false
  end.

(** The exception of a call that raised. *)
Definition error_of {A} (r : result A) : option exn :=
  match r with Ok _ => None | Raise e => Some e end.

Section DecodeVocabulary.
Context `{Host}.

(** The message and cause of the two [AudioDecodeError]s. *)
Definition no_backend_error (e : exn) : exn :=
  Exn AudioDecodeError
    "Audio decode failed: no suitable backend found (install ffmpeg)" (Some e).

Definition after_ffmpeg_error (e2 : exn) : exn :=
  Exn AudioDecodeError
    ("Audio decode failed after ffmpeg conversion: " ++ str_exn e2) (Some e2).

(** The sentence of the specification about decode errors, read on the
    model: an [AudioDecodeError] comes out exactly when the first decode
    fails and the transcoder is missing or the decode of the transcoded
    file fails. *)
Definition decode_error_only_without_tool_or_on_failed_retry
    (audio_path : string) (fs : FS) : Prop :=
  let tmpwav := (mkstemp fs).1 in
  let transcoded := (ffmpeg (mkstemp fs).2 audio_path tmpwav).2 in
  raises AudioDecodeError (load_audio audio_path fs).1 ↔
    is_ok (librosa_load fs audio_path) = false ∧
    (which_ffmpeg = false ∨ is_ok (librosa_load transcoded tmpwav) = false).

End DecodeVocabulary.

Section PredictionVocabulary.
Context `{Host} `{Librosa} `{Numpy}.
Variable st : module_state.

(** The library calls of [extract_features_from_audio] that follow the
    beat tracker all return on [y]. *)
Definition analysis_succeeds (y : list float) (sr : Z) : Prop :=
  is_ok (rms y 2048 512) = true
  ∧ is_ok (spectral_centroid y sr) = true
  ∧ is_ok (zero_crossing_rate y 2048 512) = true
  ∧ is_ok (spectral_rolloff y sr 0.85%float) = true
  ∧ is_ok (mfcc y sr 13 2048 512) = true
  ∧ is_ok (chroma_stft y sr 2048 512) = true
  ∧ is_ok (onset_strength y sr) = true
  ∧ is_ok (spectral_contrast y sr 2048 512) = true.

(** What the classifier is asked: the scaled feature row of the signal. *)
Definition scaled_features (y : list float) (sr : Z) : result (list (list float)) :=
  features_array ← extract_features_from_audio y sr;
  call_transform (scaler st) features_array.

(** The probability vector of a request: row 0 of [predict_proba] on the
    scaled features of the decoded file. *)
Definition probability_vector (audio_path : string) (fs : FS) (probs : list float)
  : Prop :=
  ∃ y sr x proba,
    (load_audio audio_path fs).1 = Ok (y, sr)
    ∧ scaled_features y sr = Ok x
    ∧ call_predict_proba (classifier st) x = Ok proba
    ∧ proba !! 0%nat = Some probs.

(** The sentence of the specification about the probability map, read on
    the model: for every prediction the keys are the labels the vector was
    aligned with, there are as many labels as probabilities, and the
    values sum to one. *)
Definition probability_map_matches_labels (audio_path : string) (fs : FS) : Prop :=
  ∀ r fs' probs labels,
    predict_mood st audio_path fs = (Ok r, fs') →
    probability_vector audio_path fs probs →
    aligned_labels st probs = Ok labels →
    list_to_set (dict_keys (probabilities r)) =@{gset string} list_to_set labels
    ∧ length labels = length probs
    ∧ sums_to_one (dict_values (probabilities r)).

(** The three ways an upload passes the check of the handler: its content
    type starts with [audio/], or is [application/octet-stream], or the
    lower-cased file name ends with one of the five extensions. *)
Definition upload_accepted (file : App.UploadFile) : Prop :=
  (∃ ct rest, App.content_type file = Some ct ∧ ct = "audio/" ++ rest)
  ∨ App.content_type file = Some "application/octet-stream"
  ∨ (∃ ext stem, ext ∈ App.audio_extensions
                 ∧ App.lower (App.filename file) = stem ++ ext).

(** The answer of the handler to an exception of [predict_mood]. *)
Definition http_error_of (e : exn) : exn :=
  match exn_kind_of e with
  | AudioDecodeError => Exn (HTTPException 415) (str_exn e) None
  | HTTPException _ => e
  | _ => Exn (HTTPException 500) (str_exn e) None
  end.

(** The answer of the handler of the second service to an exception of its
    own body. *)
Definition internal_error_of (e : exn) : exn :=
  match exn_kind_of e with
  | HTTPException _ => e
  | _ => Exn (HTTPException 500) ("Prediction failed: " ++ str_exn e) None
  end.

End PredictionVocabulary.


(** * Properties *)

(** ** Decoding: [load_audio] *)

Section LoadAudioFacts.
Context `{Host}.

Lemma remove_if_exists (p : string) (fs : FS) :
  (let* b := os_path_exists p in if b then os_remove p else ret tt)%py fs
  = (Ok tt, delete p fs).
Proof.
  unfold bind, os_path_exists, os_remove, ret.
  destruct (fs !! p) as [f|] eqn:Hp.
  - rewrite bool_decide_eq_true_2 by eauto. by rewrite Hp.
  - rewrite bool_decide_eq_false_2 by (intros [? ?]; congruence).
    by rewrite delete_id.
Qed.

Lemma try_finally_remove {A} (body : M A) (p : string) (fs : FS) :
  try_finally body
    (let* b := os_path_exists p in if b then os_remove p else ret tt)%py fs
  = ((body fs).1, delete p (body fs).2).
Proof.
  unfold try_finally. destruct (body fs) as [r fs']. simpl.
  by rewrite remove_if_exists.
Qed.

(** [load_audio], one case per path through its two [try] statements. *)
Lemma load_audio_cases (audio_path : string) (fs : FS) :
  load_audio audio_path fs =
  match librosa_load fs audio_path with
  | Ok y => (Ok (y, sr_22050), fs)
  | Raise e =>
      if which_ffmpeg then
        let tmpwav := (mkstemp fs).1 in
        let done := ffmpeg (mkstemp fs).2 audio_path tmpwav in
        (match done.1 with
         | Raise e2 => Raise (after_ffmpeg_error e2)
         | Ok _ =>
             match librosa_load done.2 tmpwav with
             | Ok y => Ok (y, sr_22050)
             | Raise e2 => Raise (after_ffmpeg_error e2)
             end
         end, delete tmpwav done.2)
      else (Raise (no_backend_error e), fs)
  end.
Proof.
  unfold load_audio, try_except at 1, decode at 1. simpl.
  destruct (librosa_load fs audio_path) as [y|e]; simpl; [done|].
  destruct which_ffmpeg; [|done].
  unfold bind at 1, mkstemp_wav. destruct (mkstemp fs) as [tmpwav fs1]. simpl.
  rewrite try_finally_remove.
  unfold try_except, bind, check_call_ffmpeg, decode, raise.
  destruct (ffmpeg fs1 audio_path tmpwav) as [[[]|e2] fs2]; simpl; [|done].
  destruct (librosa_load fs2 tmpwav); done.
Qed.

(** C6 (as amended).  [load_audio] raises an [AudioDecodeError] exactly when
    the first decode fails and either ffmpeg is not on the host, or the
    ffmpeg command fails, or the decode of the transcoded file fails.  The
    error carries its cause: the exception of the first decode when the tool
    is missing, that of the failed command or of the failed second decode
    otherwise.  When the first decode fails, the tool is there and the
    command succeeds, the outcome is that of decoding the temporary file. *)
Theorem load_audio_decode_error (audio_path : string) (fs : FS) :
  let primary := librosa_load fs audio_path in
  let tmpwav := (mkstemp fs).1 in
  let done := ffmpeg (mkstemp fs).2 audio_path tmpwav in
  let retry := librosa_load done.2 tmpwav in
  (raises AudioDecodeError (load_audio audio_path fs).1 ↔
     is_ok primary = false ∧
     (which_ffmpeg = false ∨ is_ok done.1 = false ∨ is_ok retry = false))
  ∧ (∀ e, primary = Raise e → which_ffmpeg = false →
       (load_audio audio_path fs).1 = Raise (no_backend_error e))
  ∧ (∀ e e2, primary = Raise e → which_ffmpeg = true → done.1 = Raise e2 →
       (load_audio audio_path fs).1 = Raise (after_ffmpeg_error e2))
  ∧ (∀ e, primary = Raise e → which_ffmpeg = true → is_ok done.1 = true →
       (load_audio audio_path fs).1 =
         match retry with
         | Ok y => Ok (y, sr_22050)
         | Raise e2 => Raise (after_ffmpeg_error e2)
         end)
  ∧ (∀ err, (load_audio audio_path fs).1 = Raise err →
       exn_kind_of err = AudioDecodeError ∧ is_Some (exn_cause err)).
Proof.
  intros primary tmpwav done retry.
  rewrite load_audio_cases. cbv zeta. fold primary tmpwav done retry.
  split; [split|split; [|split; [|split]]].
  - destruct primary as [y|e]; simpl.
    { intros (m & c & Hr). discriminate Hr. }
    intros Hr. split; [done|].
    destruct which_ffmpeg; [right|by left].
    simpl in Hr. destruct done.1 as [[]|e2]; simpl; [right|by left].
    destruct retry as [y|e2]; [|done].
    destruct Hr as (m & c & Hr). discriminate Hr.
  - destruct primary as [y|e]; simpl; [intros [[=] _]|].
    intros [_ Hwhy]. unfold raises, no_backend_error, after_ffmpeg_error.
    destruct which_ffmpeg; simpl; [|by eauto].
    destruct done.1 as [[]|e2]; simpl; [|by eauto].
    destruct retry as [y|e2]; simpl; [|by eauto].
    destruct Hwhy as [?|[?|?]]; done.
  - intros e -> ->. done.
  - intros e e2 -> -> ->. done.
  - intros e -> -> Hok. simpl. destruct done.1 as [[]|e2]; [done|discriminate Hok].
  - intros err. destruct primary as [y|e]; simpl; [discriminate|].
    destruct which_ffmpeg; simpl; [|by intros [= <-]; eauto].
    destruct done.1 as [[]|e2]; simpl; [|by intros [= <-]; eauto].
    destruct retry as [y|e2]; [discriminate|by intros [= <-]; eauto].
Qed.

(** C7.  Whenever [load_audio] creates the temporary file (the first decode
    failed and ffmpeg is on the host), that file no longer exists when
    [load_audio] returns or raises; on the other paths no file is created
    and the file system is left as it was. *)
Theorem load_audio_removes_temporary_file (audio_path : string) (fs : FS) :
  (is_ok (librosa_load fs audio_path) = false → which_ffmpeg = true →
     (load_audio audio_path fs).2 !! (mkstemp fs).1 = None)
  ∧ (is_ok (librosa_load fs audio_path) = true ∨ which_ffmpeg = false →
     (load_audio audio_path fs).2 = fs).
Proof.
  rewrite load_audio_cases. split.
  - destruct (librosa_load fs audio_path) as [y|e]; [done|].
    intros _ ->. simpl. apply lookup_delete_eq.
  - destruct (librosa_load fs audio_path) as [y|e]; [done|].
    intros [[=]| ->]. done.
Qed.

End LoadAudioFacts.

(** On a host whose ffmpeg exits with status 1, an undecodable upload ends
    in an [AudioDecodeError] whose cause is the failed command. *)
Lemma load_audio_decode_error_witness :
  (@load_audio (Sample.host true false) "song.mp3"
     {["song.mp3" := Sample.mp3_file]}).1
  = Raise (after_ffmpeg_error
             (Exn CalledProcessError
                "Command 'ffmpeg' returned non-zero exit status 1." None)).
Proof.
  exact (proj1 (proj2 (proj2
           (@load_audio_decode_error (Sample.host true false) "song.mp3"
              {["song.mp3" := Sample.mp3_file]})))
           _ _ eq_refl eq_refl eq_refl).
Defined.

(** C6, counterexample.  The ffmpeg of this host leaves a decodable file
    behind and exits with status 1: [load_audio] raises an
    [AudioDecodeError] although ffmpeg is on the host and the transcoded
    file decodes; the second decode is never tried. *)
Lemma load_audio_failed_transcode_counterexample :
  ¬ @decode_error_only_without_tool_or_on_failed_retry
      (Sample.host true false) "song.mp3" {["song.mp3" := Sample.mp3_file]}.
Proof.
  unfold decode_error_only_without_tool_or_on_failed_retry.
  intros [Hraised _].
  destruct Hraised as [_ [Hwhich|Hretry]].
  - eexists _, _. vm_compute. reflexivity.
  - discriminate Hwhich.
  - vm_compute in Hretry. discriminate Hretry.
Qed.

(** The temporary file exists right after [mkstemp] and is gone when
    [load_audio] has returned. *)
Lemma load_audio_removes_temporary_file_witness :
  (@mkstemp (Sample.host true true) {["song.mp3" := Sample.mp3_file]}).2
    !! Sample.tmp_name = Some (File true [])
  ∧ is_ok (@load_audio (Sample.host true true) "song.mp3"
             {["song.mp3" := Sample.mp3_file]}).1 = true
  ∧ (@load_audio (Sample.host true true) "song.mp3"
       {["song.mp3" := Sample.mp3_file]}).2 !! Sample.tmp_name = None.
Proof.
  split; [reflexivity|]. split; [reflexivity|].
  exact (proj1 (@load_audio_removes_temporary_file (Sample.host true true)
                  "song.mp3" {["song.mp3" := Sample.mp3_file]})
           eq_refl eq_refl).
Defined.

(** ** Feature extraction *)

(** Inverting a chain of calls that returned: every call of the chain
    returned. *)
Lemma reraise_id {A} (r : result A) : reraise r = r.
Proof. by destruct r. Qed.

Ltac bind_ok H :=
  repeat (
    unfold mbind, result_bind in H; rewrite ?reraise_id in H;
    lazymatch type of H with
    | rbind ?r _ = Ok _ =>
        let E := fresh "Hcall" in
        destruct r as [?|?] eqn:E; simpl in H; [|discriminate H]
    | (let '(_, _) := ?p in _) = Ok _ => destruct p; simpl in H
    end).

Section FeatureFacts.
Context `{Librosa} `{Numpy}.

Lemma py_index_lt {A} (a : list A) (i : nat) :
  (i < length a)%nat → ∃ x, a !! i = Some x ∧ py_index a i = Ok x.
Proof.
  intros Hi. destruct (lookup_lt_is_Some_2 a i Hi) as [x Hx].
  exists x. unfold py_index. by rewrite Hx.
Qed.

Lemma py_index_ok {A} (a : list A) (i : nat) (x : A) :
  py_index a i = Ok x → a !! i = Some x.
Proof. unfold py_index. destruct (a !! i); [intros [= ->]; done|discriminate]. Qed.

(** What [float(tempo)] gives: a scalar converts to itself, an array only
    when it holds one element, and then to that element; what it raises is
    a [TypeError], and only for an array. *)
Lemma py_float_ok (tempo : tempo_t) (t : float) :
  py_float tempo = Ok t → tempo = TempoScalar t ∨ tempo = TempoArray [t].
Proof.
  destruct tempo as [t'|a]; simpl.
  - intros [= ->]. by left.
  - intros Ha. right. f_equal.
    destruct (decide (length a = 1%nat)) as [Hlen|Hlen].
    + destruct a as [|x [|]]; try done.
      destruct (float_of_array_one x) as [Hx|(m & c & Hx)]; congruence.
    + destruct (float_of_array_many a Hlen) as (m & c & Hm). congruence.
Qed.

Lemma py_float_raise (tempo : tempo_t) (e : exn) :
  py_float tempo = Raise e →
  exn_kind_of e = TypeError ∧ ∃ a, tempo = TempoArray a.
Proof.
  destruct tempo as [t'|a]; simpl; [discriminate|].
  intros Ha. split; [|by exists a].
  destruct (decide (length a = 1%nat)) as [Hlen|Hlen].
  - destruct a as [|x [|]]; try done.
    destruct (float_of_array_one x) as [Hx|(m & c & Hx)]; [congruence|].
    rewrite Hx in Ha. by injection Ha as <-.
  - destruct (float_of_array_many a Hlen) as (m & c & Hm).
    rewrite Hm in Ha. by injection Ha as <-.
Qed.

(** The run of [extract_features_from_audio] once the analysis routines
    have returned: the conversion of the tempo decides. *)
Lemma extract_features_from_audio_after_analysis
    (y : list float) (sr : Z) (tempo : tempo_t) (beats : list Z) :
  sr ≠ 0 →
  beat_track y sr = Ok (tempo, beats) →
  analysis_succeeds y sr →
  match py_float tempo with
  | Ok t =>
      ∃ row, extract_features_from_audio y sr = Ok [row]
             ∧ length row = 15%nat ∧ row !! 0%nat = Some t
  | Raise e => extract_features_from_audio y sr = Raise e
  end.
Proof.
  intros Hsr Hbt (Hrms & Hcen & Hzcr & Hroll & Hmfcc & Hchroma & Honset
                  & Hcontrast).
  unfold extract_features_from_audio, py_truediv.
  rewrite decide_False by done.
  unfold mbind, result_bind, reraise. simpl. rewrite Hbt. simpl.
  destruct (rms y 2048 512); [simpl|discriminate Hrms].
  destruct (spectral_centroid y sr); [simpl|discriminate Hcen].
  destruct (zero_crossing_rate y 2048 512); [simpl|discriminate Hzcr].
  destruct (spectral_rolloff y sr _); [simpl|discriminate Hroll].
  destruct (mfcc y sr 13 2048 512) as [mfccs|] eqn:Em; [simpl|discriminate Hmfcc].
  destruct (chroma_stft y sr 2048 512); [simpl|discriminate Hchroma].
  destruct (onset_strength y sr); [simpl|discriminate Honset].
  destruct (spectral_contrast y sr 2048 512); [simpl|discriminate Hcontrast].
  destruct (py_float tempo) as [t|e]; [simpl|done].
  apply mfcc_rows in Em.
  destruct (py_index_lt mfccs 1) as (m1 & _ & ->); [lia|].
  destruct (py_index_lt mfccs 2) as (m2 & _ & ->); [lia|].
  simpl. by eexists.
Qed.

(** What [extract_features_from_audio] returns, when it returns, is one row
    of exactly 15 numbers in the order tempo, RMS mean, centroid mean,
    zero-crossing mean, rolloff mean, mean of MFCC row 1, mean of MFCC row
    2, chroma mean, onset-strength mean, contrast mean, onset-strength
    deviation, RMS deviation, rolloff deviation, chroma deviation,
    onset-strength deviation, where the tempo is the one the beat tracker
    reported, the MFCC rows are rows 1 and 2 of a 13-row computation (row 0
    is not used) and slot 11 (index 10) is the standard deviation of the
    onset-strength curve. *)
Lemma extract_features_from_audio_vector
    (y : list float) (sr : Z) (features : list (list float)) :
  extract_features_from_audio y sr = Ok features →
  ∃ tempo beats rms_ centroid zcr rolloff mfccs chroma onset_env contrast
    tempo_mean mfccs_1 mfccs_2 row,
    beat_track y sr = Ok (tempo, beats)
    ∧ (tempo = TempoScalar tempo_mean ∨ tempo = TempoArray [tempo_mean])
    ∧ rms y 2048 512 = Ok rms_
    ∧ spectral_centroid y sr = Ok centroid
    ∧ zero_crossing_rate y 2048 512 = Ok zcr
    ∧ spectral_rolloff y sr 0.85%float = Ok rolloff
    ∧ mfcc y sr 13 2048 512 = Ok mfccs
    ∧ chroma_stft y sr 2048 512 = Ok chroma
    ∧ onset_strength y sr = Ok onset_env
    ∧ spectral_contrast y sr 2048 512 = Ok contrast
    ∧ length mfccs = 13%nat
    ∧ mfccs !! 1%nat = Some mfccs_1
    ∧ mfccs !! 2%nat = Some mfccs_2
    ∧ features = [row]
    ∧ length row = 15%nat
    ∧ row = [ tempo_mean;
              np_mean (Arr2 rms_);
              np_mean (Arr2 centroid);
              np_mean (Arr2 zcr);
              np_mean (Arr2 rolloff);
              np_mean (Arr1 mfccs_1);
              np_mean (Arr1 mfccs_2);
              np_mean (Arr2 chroma);
              np_mean (Arr1 onset_env);
              np_mean (Arr2 contrast);
              np_std (Arr1 onset_env);
              np_std (Arr2 rms_);
              np_std (Arr2 rolloff);
              np_std (Arr2 chroma);
              np_std (Arr1 onset_env) ]
    ∧ row !! 5%nat = Some (np_mean (Arr1 mfccs_1))
    ∧ row !! 6%nat = Some (np_mean (Arr1 mfccs_2))
    ∧ row !! 10%nat = Some (np_std (Arr1 onset_env)).
Proof.
  intros Hret.
  unfold extract_features_from_audio in Hret.
  bind_ok Hret.
  injection Hret as <-.
  repeat eexists; eauto using py_index_ok, mfcc_rows, py_float_ok.
Qed.

(** C1 (defect).  Line 144 converts the tempo with a bare [float(tempo)],
    where line 201 of the same file asks [np.isscalar(tempo)] first.  On a
    signal on which every analysis routine returns, the function therefore
    returns its row of 15 numbers, the first of them the reported tempo,
    only when the tempo is a scalar or an array of one element that numpy
    still converts; when the beat tracker reports the tempo as an array that
    [float] refuses, the function raises that [TypeError] and returns no
    vector. *)
Theorem extract_features_from_audio_unguarded_tempo
    (y : list float) (sr : Z) (tempo : tempo_t) (beats : list Z) :
  sr ≠ 0 →
  beat_track y sr = Ok (tempo, beats) →
  analysis_succeeds y sr →
  (∀ e, py_float tempo = Raise e →
     extract_features_from_audio y sr = Raise e
     ∧ exn_kind_of e = TypeError
     ∧ ∃ a, tempo = TempoArray a)
  ∧ (∀ t, py_float tempo = Ok t →
       (tempo = TempoScalar t ∨ tempo = TempoArray [t])
       ∧ ∃ row, extract_features_from_audio y sr = Ok [row]
                ∧ length row = 15%nat ∧ row !! 0%nat = Some t).
Proof.
  intros Hsr Hbt Hcalls.
  pose proof (extract_features_from_audio_after_analysis y sr tempo beats
                Hsr Hbt Hcalls) as Hrun.
  split.
  - intros e He. rewrite He in Hrun.
    destruct (py_float_raise tempo e He) as [Hkind Harr]. done.
  - intros t Ht. rewrite Ht in Hrun. split; [by apply py_float_ok|done].
Qed.

End FeatureFacts.

Ltac float_neq :=
  let E := fresh "E" in
  intros E;
  lazymatch type of E with
  | ?a = _ =>
      apply (f_equal (same_float a)) in E;
      vm_compute in E; discriminate E
  end.

(** With a beat tracker that reports the tempo as an array of one element
    and a numpy that converts no such array, [extract_features_from_audio]
    raises on a three-sample signal. *)
Lemma extract_features_from_audio_unguarded_tempo_witness :
  @extract_features_from_audio Sample.array_tempo_librosa Sample.strict_numpy
    [0.5%float; (-0.25)%float; 1%float] 22050
  = Raise (Exn TypeError
             "only 0-dimensional arrays can be converted to Python scalars" None).
Proof.
  destruct (@extract_features_from_audio_unguarded_tempo
              Sample.array_tempo_librosa Sample.strict_numpy
              [0.5%float; (-0.25)%float; 1%float] 22050
              (TempoArray [120%float])
              (Sample.beats_of [0.5%float; (-0.25)%float; 1%float]))
    as [Hraise _]; [discriminate|reflexivity|repeat split|].
  apply Hraise. reflexivity.
Defined.

(** The same signal with a scalar tempo: the row is returned, the tempo in
    its first slot. *)
Lemma extract_features_from_audio_scalar_tempo :
  ∃ row,
    @extract_features_from_audio Sample.librosa Sample.numpy
      [0.5%float; (-0.25)%float; 1%float] 22050 = Ok [row]
    ∧ length row = 15%nat ∧ row !! 0%nat = Some 120%float.
Proof.
  apply (@extract_features_from_audio_after_analysis Sample.librosa Sample.numpy
           [0.5%float; (-0.25)%float; 1%float] 22050 (TempoScalar 120%float)
           (Sample.beats_of [0.5%float; (-0.25)%float; 1%float]));
    [discriminate|reflexivity|repeat split].
Qed.

Section TwoExtractors.
Context `{Host} `{Librosa} `{Numpy}.

(** C9.  On the same decoded signal the two extractors fill the same slots
    from different quantities: slot 6 (index 5) from MFCC row 1 against
    row 0, slot 7 from row 2 against row 1, slot 9 from the mean of the
    onset-strength curve against the number of detected onsets, slots 11
    and 15 from the deviation of the onset-strength curve against the
    deviation of the beat frames.  Whenever the two quantities of one slot
    differ, so do the two vectors. *)
Theorem extractors_fill_slots_differently
    (fs : FS) (audio_path : string) (y fa fb : list float) :
  librosa_load fs audio_path = Ok y →
  extract_features_from_audio y sr_22050 = Ok [fa] →
  extract_anti_overfitting_features fs audio_path = Some fb →
  ∃ tempo beats mfccs onset_env onset_frames m0 m1 m2,
    beat_track y sr_22050 = Ok (tempo, beats)
    ∧ mfcc y sr_22050 13 2048 512 = Ok mfccs
    ∧ mfccs !! 0%nat = Some m0 ∧ mfccs !! 1%nat = Some m1
    ∧ mfccs !! 2%nat = Some m2
    ∧ onset_strength y sr_22050 = Ok onset_env
    ∧ onset_detect y sr_22050 = Ok onset_frames
    ∧ length fa = 15%nat ∧ length fb = 15%nat
    ∧ fa !! 5%nat = Some (np_mean (Arr1 m1))
    ∧ fb !! 5%nat = Some (np_mean (Arr1 m0))
    ∧ fa !! 6%nat = Some (np_mean (Arr1 m2))
    ∧ fb !! 6%nat = Some (np_mean (Arr1 m1))
    ∧ fa !! 8%nat = Some (np_mean (Arr1 onset_env))
    ∧ fb !! 8%nat = Some (if bool_decide (0 < length onset_frames)%nat
                          then float_of_nat (length onset_frames) else 0%float)
    ∧ fa !! 10%nat = Some (np_std (Arr1 onset_env))
    ∧ fb !! 10%nat = Some (if bool_decide (1 < length beats)%nat
                           then np_std (ArrI beats) else 0%float)
    ∧ fa !! 14%nat = Some (np_std (Arr1 onset_env))
    ∧ fb !! 14%nat = fb !! 10%nat
    ∧ (fa !! 5%nat ≠ fb !! 5%nat ∨ fa !! 6%nat ≠ fb !! 6%nat
       ∨ fa !! 8%nat ≠ fb !! 8%nat ∨ fa !! 10%nat ≠ fb !! 10%nat
       ∨ fa !! 14%nat ≠ fb !! 14%nat → fa ≠ fb).
Proof.
  intros Hload Ha Hb.
  unfold extract_anti_overfitting_features in Hb.
  rewrite Hload in Hb. unfold mbind, result_bind in Hb. simpl in Hb.
  destruct (anti_overfitting_features y sr_22050) as [fb'|] eqn:Hb';
    [injection Hb as ->|discriminate Hb].
  unfold anti_overfitting_features in Hb'. bind_ok Hb'.
  unfold extract_features_from_audio, mbind, result_bind in Ha.
  rewrite reraise_id in Ha.
  repeat match type of Ha with
         | context [rbind ?c _] =>
             match goal with
             | E : c = Ok _ |- _ => rewrite E in Ha; simpl in Ha
             end
         end.
  bind_ok Ha.
  injection Ha as <-. injection Hb' as <-.
  eexists _, _, _, _, _, _, _, _.
  split_and!; eauto using py_index_ok.
  intros Hne Heq. rewrite Heq in Hne.
  destruct Hne as [?|[?|[?|[?|?]]]]; done.
Qed.

End TwoExtractors.

(** On a decodable file the two extractors return different vectors; the
    MFCC slots and the onset slots all differ. *)
Lemma extractors_fill_slots_differently_witness :
  ∃ y fa fb,
    @librosa_load (Sample.host true true) {["song.wav" := Sample.wav_file]}
      "song.wav" = Ok y
    ∧ @extract_features_from_audio Sample.librosa Sample.numpy y sr_22050
      = Ok [fa]
    ∧ @extract_anti_overfitting_features (Sample.host true true) Sample.librosa
        Sample.numpy {["song.wav" := Sample.wav_file]} "song.wav" = Some fb
    ∧ fa !! 5%nat ≠ fb !! 5%nat ∧ fa !! 6%nat ≠ fb !! 6%nat
    ∧ fa !! 8%nat ≠ fb !! 8%nat ∧ fa !! 10%nat ≠ fb !! 10%nat
    ∧ fa !! 14%nat ≠ fb !! 14%nat
    ∧ fa ≠ fb.
Proof.
  eexists _, _, _.
  split; [reflexivity|].
  split; [vm_compute; reflexivity|].
  split; [vm_compute; reflexivity|].
  repeat split; try (simpl; float_neq).
  edestruct (@extractors_fill_slots_differently (Sample.host true true)
               Sample.librosa Sample.numpy {["song.wav" := Sample.wav_file]}
               "song.wav")
    as (? & ? & ? & ? & ? & ? & ? & ? & Hfacts);
    [vm_compute; reflexivity ..|].
  apply Hfacts. left. simpl. float_neq.
Defined.

(** ** Loading the model bundle *)

(** A non-empty ["classes"] field decides the labels, whatever the
    classifier itself lists. *)
Lemma resolve_moods_classes_first (d : gmap string pyval) (classifier : pyval)
    (item : label_item) (items : list label_item) :
  d !! "classes" = Some (VLabels (PIter (item :: items))) →
  resolve_moods (PkDict d) classifier
  = Ok (MList (map py_str (item :: items)), [LogInfo "Loaded moods: %s"]).
Proof. intros Hd. unfold resolve_moods. rewrite Hd. done. Qed.

(** Without a ["classes"] field a non-empty ["moods"] field decides. *)
Lemma resolve_moods_moods_second (d : gmap string pyval) (classifier : pyval)
    (item : label_item) (items : list label_item) :
  d !! "classes" = None →
  d !! "moods" = Some (VLabels (PIter (item :: items))) →
  resolve_moods (PkDict d) classifier
  = Ok (MList (map py_str (item :: items)), [LogInfo "Loaded moods: %s"]).
Proof. intros Hc Hm. unfold resolve_moods. rewrite Hc. simpl. rewrite Hm. done. Qed.

(** With neither field and no class list on the classifier, the four
    default labels are used and a warning is logged. *)
Lemma resolve_moods_default_last (d : gmap string pyval) (classifier : pyval) :
  d !! "classes" = None → d !! "moods" = None →
  getattr_classes_ classifier = PNone →
  resolve_moods (PkDict d) classifier
  = Ok (MList ["calm"; "energetic"; "happy"; "sad"],
        [LogWarning "Model moods not found in bundle; falling back to default labels %s";
         LogInfo "Loaded moods: %s"]).
Proof.
  intros Hc Hm Hg. unfold resolve_moods. rewrite Hc. simpl. rewrite Hm. simpl.
  rewrite Hg. done.
Qed.

(** C2 (defect).  A bundle whose ["classes"] field is an empty list and whose
    ["moods"] field holds the four moods: the ["moods"] field is never read,
    and the labels are those of the classifier. *)
Theorem resolve_moods_empty_classes_hides_moods :
  resolve_moods
    (Sample.bundle_of (PIter []) Sample.four_labels (PIter [LStr "a"; LStr "b"]))
    (VClassifier (Sample.the_classifier (PIter [LStr "a"; LStr "b"])))
  = Ok (MList ["a"; "b"], [LogInfo "Loaded moods: %s"]).
Proof. reflexivity. Qed.

(** C4 (defect).  With no file at [MODEL_PATH] the import of jsdbk.py stops
    with the [FileNotFoundError] of [open], not with a [ModelLoadError]. *)
Theorem import_jsdbk_missing_file `{Pickle} (here : string) :
  import_jsdbk here ∅
  = Raise (Exn FileNotFoundError
             ("[Errno 2] No such file or directory: '" ++ MODEL_PATH here ++ "'")
             None).
Proof. unfold import_jsdbk, open_rb. rewrite lookup_empty. done. Qed.

(** An unreadable file stops the import with the [PermissionError] of [open]. *)
Lemma import_jsdbk_unreadable_file `{Pickle} (here : string) (fs : FS) (f : file) :
  fs !! MODEL_PATH here = Some f → readable f = false →
  raises PermissionError (import_jsdbk here fs).
Proof.
  intros Hf Hr. unfold import_jsdbk, open_rb. rewrite Hf, Hr.
  eexists _, _. done.
Qed.

(** [verify_model_moods()] accepts a list of labels exactly when it holds
    the four moods, and raises [ModelLoadError] otherwise. *)
Lemma verify_model_moods_default (st : module_state) (labels : list string) :
  MOODS st = MList labels →
  (required_default ⊆ list_to_set labels → verify_model_moods st None = Ok true)
  ∧ (¬ required_default ⊆ list_to_set labels →
     raises ModelLoadError (verify_model_moods st None)).
Proof.
  intros HM. unfold verify_model_moods. rewrite HM. simpl.
  unfold mbind, result_bind. simpl. split; intros Hsub.
  - by rewrite bool_decide_eq_true_2.
  - rewrite bool_decide_eq_false_2 by done. eexists _, _. done.
Qed.

(** C5 (defect).  A bundle trained for another taxonomy loads: the import
    ends with the labels [angry], [chill], and [verify_model_moods], which
    would have refused them, is not part of the import. *)
Theorem import_jsdbk_does_not_validate :
  ∃ st,
    @import_jsdbk
      (Sample.pickle
         (Sample.bundle_of (PIter [LStr "angry"; LStr "chill"]) PNone PNone))
      "app" {[ MODEL_PATH "app" := File true [] ]} = Ok st
    ∧ MOODS st = MList ["angry"; "chill"]
    ∧ raises ModelLoadError (verify_model_moods st None).
Proof.
  eexists. split; [vm_compute; reflexivity|]. split; [reflexivity|].
  eexists _, _. vm_compute. reflexivity.
Qed.

(** ** Python dictionaries *)

Lemma dict_set_keys {V} (k : string) (v : V) (d : pydict V) :
  list_to_set (dict_keys (dict_set k v d)) =@{gset string}
  {[ k ]} ∪ list_to_set (dict_keys d).
Proof.
  unfold dict_keys. induction d as [|[k' v'] d IH]; csimpl.
  - set_solver.
  - destruct (decide (k = k')) as [->|Hne]; csimpl; [set_solver|].
    rewrite IH. set_solver.
Qed.

Lemma dict_update_keys {V} (pairs : list (string * V)) (d : pydict V) :
  list_to_set (dict_keys (fold_left (λ d kv, dict_set kv.1 kv.2 d) pairs d))
  =@{gset string} list_to_set (dict_keys d) ∪ list_to_set pairs.*1.
Proof.
  revert d. induction pairs as [|[k v] pairs IH]; intros d; csimpl.
  - set_solver.
  - rewrite IH, dict_set_keys. set_solver.
Qed.

(** The keys of [dict(pairs)] are the first components of the pairs. *)
Lemma dict_of_keys {V} (pairs : list (string * V)) :
  list_to_set (dict_keys (dict_of pairs)) =@{gset string} list_to_set pairs.*1.
Proof. unfold dict_of. rewrite dict_update_keys. set_solver. Qed.

Lemma dict_set_fresh {V} (k : string) (v : V) (d : pydict V) :
  k ∉ dict_keys d → dict_set k v d = (d ++ [(k, v)])%list.
Proof.
  unfold dict_keys. induction d as [|[k' v'] d IH]; csimpl; [done|].
  intros Hk. rewrite not_elem_of_cons in Hk. destruct Hk as [Hne Hk].
  rewrite decide_False by done. by rewrite IH.
Qed.

Lemma dict_update_fresh {V} (pairs : list (string * V)) (d : pydict V) :
  NoDup (dict_keys d ++ pairs.*1)%list →
  fold_left (λ d kv, dict_set kv.1 kv.2 d) pairs d = (d ++ pairs)%list.
Proof.
  revert d. induction pairs as [|[k v] pairs IH]; intros d; csimpl.
  - intros _. by rewrite app_nil_r.
  - intros Hnd. rewrite dict_set_fresh.
    + rewrite IH; [by rewrite <- app_assoc|].
      unfold dict_keys in *. rewrite fmap_app. csimpl.
      rewrite <- app_assoc. exact Hnd.
    + apply NoDup_app in Hnd as (_ & Hdisj & _).
      intros Hin. apply (Hdisj k Hin). left.
Qed.

(** With pairwise distinct keys, [dict(pairs)] holds the pairs as given. *)
Lemma dict_of_distinct {V} (pairs : list (string * V)) :
  NoDup pairs.*1 → dict_of pairs = pairs.
Proof. intros Hnd. unfold dict_of. by rewrite dict_update_fresh. Qed.

(** ** Prediction: [predict_mood] *)

Lemma np_diff_length (a : list float) : length (np_diff a) = Nat.pred (length a).
Proof.
  induction a as [|x [|y a] IH]; [done..|].
  change (np_diff (x :: y :: a)) with (PrimFloat.sub y x :: np_diff (y :: a)).
  simpl length in *. by rewrite IH.
Qed.

Section PredictMoodFacts.
Context `{Host} `{Librosa} `{Numpy}.
Variable st : module_state.

(** The decoded signal always comes with the rate 22050. *)
Lemma load_audio_rate (audio_path : string) (fs fs' : FS)
    (y : list float) (sr : Z) :
  load_audio audio_path fs = (Ok (y, sr), fs') → sr = sr_22050.
Proof.
  rewrite load_audio_cases.
  destruct (librosa_load fs audio_path); [by intros [= _ <- _]|].
  destruct which_ffmpeg; [|discriminate]. cbv zeta.
  destruct (ffmpeg _ _ _).1; [|discriminate].
  destruct (librosa_load _ _); [by intros [= _ <- _]|discriminate].
Qed.

(** Everything [predict_mood] computed on the way to a result. *)
Lemma predict_mood_returns (audio_path : string) (fs fs' : FS) (r : prediction) :
  predict_mood st audio_path fs = (Ok r, fs') →
  ∃ y x proba probs tempo beats labels,
    load_audio audio_path fs = (Ok (y, sr_22050), fs')
    ∧ scaled_features st y sr_22050 = Ok x
    ∧ call_predict_proba (classifier st) x = Ok proba
    ∧ proba !! 0%nat = Some probs
    ∧ beat_track y sr_22050 = Ok (tempo, beats)
    ∧ aligned_labels st probs = Ok labels
    ∧ probabilities r = dict_of (zip labels probs)
    ∧ af_tempo_variance (audio_features r) =
        (if bool_decide (1 < length beats)%nat then
           if bool_decide
                (0 < length (np_diff (frames_to_time beats sr_22050)))%nat
           then PrimFloat.mul
                  (np_std (Arr1 (np_diff (frames_to_time beats sr_22050))))
                  60%float
           else 0%float
         else 0%float).
Proof.
  unfold predict_mood, try_except, bind, lift, raise. intros Hrun.
  destruct (load_audio audio_path fs) as [[[y sr]|e] fs1] eqn:Hload;
    [|discriminate Hrun].
  pose proof (load_audio_rate _ _ _ _ _ Hload) as ->.
  match type of Hrun with
  | match ?chain with Ok _ => _ | Raise _ => _ end = _ =>
      destruct chain as [r'|e] eqn:Hchain; [|discriminate Hrun]
  end.
  injection Hrun as -> ->.
  bind_ok Hchain. injection Hchain as <-. simpl.
  eexists _, _, _, _, _, _, _.
  split_and!; eauto using py_index_ok.
  unfold scaled_features, mbind, result_bind.
  match goal with E : extract_features_from_audio _ _ = _ |- _ => rewrite E end.
  done.
Qed.

End PredictMoodFacts.

Section PredictMoodClaims.
Context `{Host} `{Librosa} `{Numpy}.
Variable st : module_state.

(** C3 (as amended).  For every prediction the probability map is
    [dict(zip(labels, probs))], where [probs] is the classifier's vector and
    [labels] is the list kept at load time when its length is that of
    [probs], and otherwise the classifier's own class list when the
    classifier has one.  Whenever [labels] has as many entries as [probs],
    the key set of the map is the set of labels; when the labels are moreover
    pairwise distinct, the keys are the labels in order and the values are
    the classifier's probabilities, unchanged and in order. *)
Theorem predict_mood_probability_map
    (audio_path : string) (fs fs' : FS) (r : prediction) :
  predict_mood st audio_path fs = (Ok r, fs') →
  ∃ probs labels,
    probability_vector st audio_path fs probs
    ∧ aligned_labels st probs = Ok labels
    ∧ probabilities r = dict_of (zip labels probs)
    ∧ (∀ loaded, py_list (MOODS st) = Ok loaded →
         length loaded = length probs → labels = loaded)
    ∧ (∀ loaded items, py_list (MOODS st) = Ok loaded →
         length loaded ≠ length probs →
         getattr_classes_ (classifier st) = PIter items →
         labels = map py_str items)
    ∧ (length labels = length probs →
         list_to_set (dict_keys (probabilities r)) =@{gset string}
         list_to_set labels)
    ∧ (length labels = length probs → NoDup labels →
         dict_keys (probabilities r) = labels
         ∧ dict_values (probabilities r) = probs).
Proof.
  intros Hrun.
  destruct (predict_mood_returns st _ _ _ _ Hrun)
    as (y & x & proba & probs & tempo & beats & labels
        & Hload & Hx & Hproba & Hrow & _ & Hlabels & Hmap & _).
  exists probs, labels. split_and!; try done.
  - exists y, sr_22050, x, proba. by rewrite Hload.
  - intros loaded Hloaded Hlen. unfold aligned_labels in Hlabels.
    rewrite Hloaded in Hlabels. unfold mbind, result_bind in Hlabels.
    simpl in Hlabels. rewrite bool_decide_eq_false_2 in Hlabels by lia.
    by injection Hlabels.
  - intros loaded items Hloaded Hlen Hown. unfold aligned_labels in Hlabels.
    rewrite Hloaded in Hlabels. unfold mbind, result_bind in Hlabels.
    simpl in Hlabels. rewrite bool_decide_eq_true_2, Hown in Hlabels by lia.
    by injection Hlabels.
  - intros Hlen. rewrite Hmap, dict_of_keys, fst_zip by lia. done.
  - intros Hlen Hnd. rewrite Hmap, dict_of_distinct by (rewrite fst_zip by lia; done).
    unfold dict_keys, dict_values. rewrite fst_zip, snd_zip by lia. done.
Qed.

(** C10.  In the result of [predict_mood] the tempo variance is 0.0 when the
    beat tracker found fewer than two beats, and otherwise the standard
    deviation of the differences between consecutive beat times, times 60. *)
Theorem predict_mood_tempo_variance
    (audio_path : string) (fs fs' : FS) (r : prediction) :
  predict_mood st audio_path fs = (Ok r, fs') →
  ∃ y tempo beats,
    (load_audio audio_path fs).1 = Ok (y, sr_22050)
    ∧ beat_track y sr_22050 = Ok (tempo, beats)
    ∧ ((length beats < 2)%nat →
         af_tempo_variance (audio_features r) = 0%float)
    ∧ ((2 ≤ length beats)%nat →
         af_tempo_variance (audio_features r) =
           PrimFloat.mul
             (np_std (Arr1 (np_diff (frames_to_time beats sr_22050))))
             60%float).
Proof.
  intros Hrun.
  destruct (predict_mood_returns st _ _ _ _ Hrun)
    as (y & x & proba & probs & tempo & beats & labels
        & Hload & _ & _ & _ & Hbeats & _ & _ & Hvar).
  exists y, tempo, beats. rewrite Hload. split_and!; try done.
  - intros Hfew. rewrite Hvar, bool_decide_eq_false_2 by lia. done.
  - intros Hmany. rewrite Hvar, bool_decide_eq_true_2 by lia.
    rewrite bool_decide_eq_true_2; [done|].
    rewrite np_diff_length, frames_to_time_length. lia.
Qed.

End PredictMoodClaims.

(** A request on a decodable file with the four default labels: the map
    has the four labels as keys and the classifier's four probabilities as
    values, which sum to one. *)
Lemma predict_mood_probability_map_witness :
  ∃ r,
    (@predict_mood (Sample.host true true) Sample.librosa Sample.numpy
       (Sample.state default_moods Sample.four_labels) "song.wav"
       {["song.wav" := Sample.wav_file]}).1 = Ok r
    ∧ dict_keys (probabilities r) = default_moods
    ∧ dict_values (probabilities r) = Sample.four_probs
    ∧ sums_to_one (dict_values (probabilities r)).
Proof.
  eexists. split; [vm_compute; reflexivity|].
  edestruct (@predict_mood_probability_map (Sample.host true true)
               Sample.librosa Sample.numpy
               (Sample.state default_moods Sample.four_labels) "song.wav"
               {["song.wav" := Sample.wav_file]})
    as (probs & labels & Hvec & Hlabels & Hmap & _ & _ & _ & Hdistinct);
    [vm_compute; reflexivity|].
  destruct Hvec as (y & sr & x & proba & _ & _ & Hproba & Hrow).
  simpl in Hproba. injection Hproba as <-.
  simpl in Hrow. injection Hrow as <-.
  vm_compute in Hlabels. injection Hlabels as <-.
  destruct Hdistinct as [Hkeys Hvalues]; [reflexivity| |].
  { repeat (apply NoDup_cons; split; [set_solver|]). apply NoDup_nil_2. }
  rewrite Hkeys, Hvalues. split; [reflexivity|]. split; reflexivity.
Defined.

(** C3, counterexample.  Five labels were kept at load time and the
    classifier, which has no class list of its own, returns four
    probabilities: the fifth label has no key in the map, and there are
    more labels than probabilities. *)
Lemma predict_mood_unaligned_labels_counterexample :
  ¬ @probability_map_matches_labels (Sample.host true true) Sample.librosa
      Sample.numpy
      (Sample.state ["calm"; "energetic"; "happy"; "sad"; "angry"] PNone)
      "song.wav" {["song.wav" := Sample.wav_file]}.
Proof.
  intros Hclaim.
  eassert (Hrun : @predict_mood (Sample.host true true) Sample.librosa
                    Sample.numpy
                    (Sample.state ["calm"; "energetic"; "happy"; "sad"; "angry"]
                       PNone)
                    "song.wav" {["song.wav" := Sample.wav_file]} = (Ok _, _))
    by (vm_compute; reflexivity).
  destruct (Hclaim _ _ Sample.four_probs
              ["calm"; "energetic"; "happy"; "sad"; "angry"] Hrun)
    as (_ & Hlen & _).
  - eexists _, _, _, _. split_and!; [vm_compute; reflexivity..].
  - reflexivity.
  - discriminate Hlen.
Qed.

(** A request on a file with three beats: the variance reported is the
    deviation of the two beat intervals, times 60. *)
Lemma predict_mood_tempo_variance_witness :
  ∃ r,
    (@predict_mood (Sample.host true true) Sample.librosa Sample.numpy
       (Sample.state default_moods Sample.four_labels) "song.wav"
       {["song.wav" := Sample.wav_file]}).1 = Ok r
    ∧ af_tempo_variance (audio_features r) = 59.907482993197277%float.
Proof.
  eexists. split; [vm_compute; reflexivity|].
  edestruct (@predict_mood_tempo_variance (Sample.host true true)
               Sample.librosa Sample.numpy
               (Sample.state default_moods Sample.four_labels) "song.wav"
               {["song.wav" := Sample.wav_file]})
    as (y & tempo & beats & Hload & Hbeats & _ & Hvar);
    [vm_compute; reflexivity|].
  vm_compute in Hload. injection Hload as <-.
  vm_compute in Hbeats. injection Hbeats as <- <-.
  etransitivity; [apply Hvar; simpl; lia|].
  vm_compute. reflexivity.
Defined.

(** ** The endpoint: [POST /predict] *)

Lemma startswith_spec (s p : string) :
  App.startswith s p = true ↔ ∃ rest, s = p ++ rest.
Proof.
  unfold App.startswith. revert s.
  induction p as [|c p IH]; intros [|c' s]; simpl.
  - split; [by exists ""|done].
  - split; [by exists (String c' s)|done].
  - split; [done|by intros [? ?]].
  - destruct (Ascii.ascii_dec c c') as [->|Hne].
    + rewrite IH. split; intros [rest Hrest]; exists rest.
      * by rewrite Hrest.
      * by injection Hrest.
    + split; [done|]. intros [rest [=]]. done.
Qed.

Lemma endswith_spec (s suffix : string) :
  App.endswith s suffix = true ↔ ∃ stem, s = stem ++ suffix.
Proof.
  induction s as [|c s IH].
  - change (App.endswith "" suffix)
      with (if String.eqb "" suffix then true else false).
    destruct (String.eqb_spec "" suffix) as [<-|Hne].
    + split; [by exists ""|done].
    + split; [done|]. intros [[|? ?] Hstem]; simpl in Hstem; [done|discriminate].
  - change (App.endswith (String c s) suffix)
      with (if String.eqb (String c s) suffix then true
            else App.endswith s suffix).
    destruct (String.eqb_spec (String c s) suffix) as [<-|Hne].
    + split; [by exists ""|done].
    + rewrite IH. split.
      * intros [stem ->]. by exists (String c stem).
      * intros [[|c' stem] Hstem]; simpl in Hstem; [done|].
        injection Hstem as -> ->. by exists stem.
Qed.

Section EndpointFacts.
Context `{Host} `{Librosa} `{Numpy}.
Variable st : module_state.

Lemma upload_accepted_check (file : App.UploadFile) :
  upload_accepted file ↔
  match App.content_type file with
  | Some ct => App.startswith ct "audio/"
  | None => false
  end
  || bool_decide (App.content_type file = Some "application/octet-stream")
  || existsb (App.endswith (App.lower (App.filename file))) App.audio_extensions
  = true.
Proof.
  unfold upload_accepted.
  rewrite !orb_true_iff, bool_decide_eq_true, existsb_exists.
  split.
  - intros [(ct & rest & -> & Hct)|[Hoct|(ext & stem & Hext & Hstem)]].
    + left. left. apply startswith_spec. eauto.
    + left. by right.
    + right. exists ext. split; [by apply list_elem_of_In|].
      apply endswith_spec. eauto.
  - intros [[Hmime|Hoct]|(ext & Hext & Hends)].
    + left. destruct (App.content_type file) as [ct|]; [|done].
      apply startswith_spec in Hmime as [rest ->]. eauto.
    + right. by left.
    + right. right. apply endswith_spec in Hends as [stem Hstem].
      exists ext, stem. split; [by apply list_elem_of_In|done].
Qed.

(** C8.  The handler accepts an upload exactly when its content type
    starts with [audio/], or is [application/octet-stream], or its file
    name, compared in lower case, ends with .wav, .mp3, .ogg, .flac or
    .m4a.  Any other upload is answered with status 400 and the detail
    [Unsupported audio format], without the upload being written or
    [predict_mood] being run; an accepted upload is written to the
    temporary path and answered from [predict_mood] on it. *)
Theorem predict_accepts_audio_uploads (file : App.UploadFile) (fs : FS) :
  (¬ upload_accepted file →
     App.predict st file fs
     = (Raise (Exn (HTTPException 400) "Unsupported audio format" None),
        delete App.temp_path fs))
  ∧ (upload_accepted file →
     App.predict st file fs
     = let outcome :=
         predict_mood st App.temp_path
           (<[App.temp_path := File true (App.file_data file)]> fs) in
       (match outcome.1 with
        | Ok r => Ok r
        | Raise e => Raise (http_error_of e)
        end,
        delete App.temp_path outcome.2)).
Proof.
  rewrite upload_accepted_check.
  unfold App.predict. rewrite try_finally_remove.
  unfold try_except, bind, raise, App.write_file.
  destruct (_ || _ || _) eqn:Hcheck; simpl; split; intros Hc;
    try done; try (by destruct Hc).
  destruct (predict_mood _ _ _) as [[r|e] fs1]; simpl; [done|].
  unfold http_error_of. by destruct (exn_kind_of e).
Qed.

End EndpointFacts.

(** [notes.txt] sent as [text/plain] is refused with status 400, and
    [SONG.WAV] sent as [text/plain] is accepted. *)
Lemma predict_accepts_audio_uploads_witness :
  (@App.predict (Sample.host true true) Sample.librosa Sample.numpy
     (Sample.state default_moods Sample.four_labels)
     (App.Upload (Some "text/plain") "notes.txt" [Byte.x68; Byte.x69])
     ∅).1
  = Raise (Exn (HTTPException 400) "Unsupported audio format" None)
  ∧ is_ok
      (@App.predict (Sample.host true true) Sample.librosa Sample.numpy
         (Sample.state default_moods Sample.four_labels)
         (App.Upload (Some "text/plain") "SONG.WAV" (data Sample.wav_file))
         ∅).1 = true.
Proof.
  split.
  - rewrite (proj1 (@predict_accepts_audio_uploads (Sample.host true true)
                      Sample.librosa Sample.numpy
                      (Sample.state default_moods Sample.four_labels)
                      (App.Upload (Some "text/plain") "notes.txt"
                         [Byte.x68; Byte.x69]) ∅)); [done|].
    rewrite upload_accepted_check. vm_compute. discriminate.
  - rewrite (proj2 (@predict_accepts_audio_uploads (Sample.host true true)
                      Sample.librosa Sample.numpy
                      (Sample.state default_moods Sample.four_labels)
                      (App.Upload (Some "text/plain") "SONG.WAV"
                         (data Sample.wav_file)) ∅)).
    + vm_compute. reflexivity.
    + rewrite upload_accepted_check. vm_compute. reflexivity.
Defined.

(** * Further properties *)

(** ** Decoding and prediction (jsdbk.py) *)

Section DecodeAndPredict.
Context `{Host} `{Librosa} `{Numpy}.
Variable st : module_state.

Lemma load_audio_only_decode_errors (audio_path : string) (fs : FS) (e : exn) :
  (load_audio audio_path fs).1 = Raise e → exn_kind_of e = AudioDecodeError.
Proof.
  rewrite load_audio_cases.
  destruct (librosa_load fs audio_path); [discriminate|].
  destruct which_ffmpeg; [|by intros [= <-]]. cbv zeta.
  destruct (ffmpeg _ _ _).1; simpl; [|by intros [= <-]].
  destruct (librosa_load _ _); [discriminate|by intros [= <-]].
Qed.

Lemma predict_mood_after_load (audio_path : string) (fs : FS) :
  (predict_mood st audio_path fs).2 = (load_audio audio_path fs).2
  ∧ ∀ e, (load_audio audio_path fs).1 = Raise e →
         (predict_mood st audio_path fs).1 = Raise e.
Proof.
  unfold predict_mood, try_except, bind, lift, raise.
  destruct (load_audio audio_path fs) as [[[y sr]|e] fs1]; simpl.
  - split; [|discriminate].
    match goal with
    | |- (match ?chain with Ok _ => _ | Raise _ => _ end).2 = _ =>
        by destruct chain
    end.
  - split; [done|]. by intros ? [= <-].
Qed.

(** X1.  Whenever [load_audio] returns, the rate it returns is 22050 and
    the samples are those of the decoder: of the first decode, or, when that
    failed, of the decode of the file ffmpeg wrote after a successful run. *)
Theorem load_audio_returns_decoder_samples
    (audio_path : string) (fs : FS) (y : list float) (sr : Z) :
  (load_audio audio_path fs).1 = Ok (y, sr) →
  sr = 22050
  ∧ (librosa_load fs audio_path = Ok y
     ∨ (is_ok (librosa_load fs audio_path) = false
        ∧ which_ffmpeg = true
        ∧ is_ok (ffmpeg (mkstemp fs).2 audio_path (mkstemp fs).1).1 = true
        ∧ librosa_load (ffmpeg (mkstemp fs).2 audio_path (mkstemp fs).1).2
            (mkstemp fs).1 = Ok y)).
Proof.
  rewrite load_audio_cases.
  destruct (librosa_load fs audio_path) as [y0|e0]; simpl.
  { intros [= -> <-]. split; [done|by left]. }
  destruct which_ffmpeg; [|discriminate]. cbv zeta. simpl.
  destruct (ffmpeg _ _ _).1 as [[]|e1]; [|discriminate].
  destruct (librosa_load _ _) as [y1|e2]; [|discriminate].
  intros [= -> <-]. split; [done|]. right. done.
Qed.

(** X2.  The file system [predict_mood] leaves behind is the one
    [load_audio] left: nothing after the decode creates, changes or removes
    a file.  When the decode fails, [predict_mood] raises the very
    exception of [load_audio], an [AudioDecodeError]. *)
Theorem predict_mood_touches_files_only_through_load_audio
    (audio_path : string) (fs : FS) :
  (predict_mood st audio_path fs).2 = (load_audio audio_path fs).2
  ∧ (∀ e, (load_audio audio_path fs).1 = Raise e →
          (predict_mood st audio_path fs).1 = Raise e
          ∧ exn_kind_of e = AudioDecodeError).
Proof.
  destruct (predict_mood_after_load audio_path fs) as [Hfs Herr].
  split; [done|]. intros e He. split; [by apply Herr|].
  by eapply load_audio_only_decode_errors.
Qed.

End DecodeAndPredict.

(** A WAV file decodes at once; an MP3 file decodes through ffmpeg. *)
Lemma load_audio_returns_decoder_samples_witness :
  (@load_audio (Sample.host true true) "song.mp3"
     {["song.mp3" := Sample.mp3_file]}).1
  = Ok ([0.5%float; (-0.25)%float; 1%float], 22050)
  ∧ @librosa_load (Sample.host true true)
      (@ffmpeg (Sample.host true true)
         (@mkstemp (Sample.host true true) {["song.mp3" := Sample.mp3_file]}).2
         "song.mp3" Sample.tmp_name).2 Sample.tmp_name
    = Ok [0.5%float; (-0.25)%float; 1%float].
Proof.
  assert (Hrun :
    (@load_audio (Sample.host true true) "song.mp3"
       {["song.mp3" := Sample.mp3_file]}).1
    = Ok ([0.5%float; (-0.25)%float; 1%float], 22050)) by reflexivity.
  split; [exact Hrun|].
  destruct (@load_audio_returns_decoder_samples (Sample.host true true)
              _ _ _ _ Hrun)
    as [_ [Hfirst|(_ & _ & _ & Hretry)]].
  - vm_compute in Hfirst. discriminate Hfirst.
  - exact Hretry.
Defined.

(** ** Feature extraction (jsdbk.py) *)

Section ExtractionErrors.
Context `{Librosa} `{Numpy}.

(** X3.  An exception of [extract_features_from_audio] is either the
    [ZeroDivisionError] of a zero rate, or the exception one of the ten
    analysis calls or the conversion of the tempo raised, handed on as it
    is; indexing the MFCC rows never fails. *)
Theorem extract_features_from_audio_hands_on_errors
    (y : list float) (sr : Z) (e : exn) :
  extract_features_from_audio y sr = Raise e →
  (sr = 0 ∧ exn_kind_of e = ZeroDivisionError)
  ∨ Some e ∈ [ error_of (beat_track y sr);
               error_of (rms y 2048 512);
               error_of (spectral_centroid y sr);
               error_of (zero_crossing_rate y 2048 512);
               error_of (spectral_rolloff y sr 0.85%float);
               error_of (mfcc y sr 13 2048 512);
               error_of (chroma_stft y sr 2048 512);
               error_of (onset_strength y sr);
               error_of (spectral_contrast y sr 2048 512);
               error_of ('(tempo, _) ← beat_track y sr; py_float tempo) ].
Proof.
  unfold extract_features_from_audio, py_truediv, mbind, result_bind.
  destruct (decide (sr = 0)) as [->|Hsr]; simpl.
  { intros [= <-]. by left. }
  rewrite reraise_id. intros Hraise. right.
  destruct (beat_track y sr) as [[tempo beats]|] eqn:E1; simpl in *;
    [|injection Hraise as ->; set_solver].
  destruct (rms y 2048 512) eqn:E2; simpl in *;
    [|injection Hraise as ->; set_solver].
  destruct (spectral_centroid y sr) eqn:E3; simpl in *;
    [|injection Hraise as ->; set_solver].
  destruct (zero_crossing_rate y 2048 512) eqn:E4; simpl in *;
    [|injection Hraise as ->; set_solver].
  destruct (spectral_rolloff y sr _) eqn:E5; simpl in *;
    [|injection Hraise as ->; set_solver].
  destruct (mfcc y sr 13 2048 512) as [mfccs|] eqn:E6; simpl in *;
    [|injection Hraise as ->; set_solver].
  destruct (chroma_stft y sr 2048 512) eqn:E7; simpl in *;
    [|injection Hraise as ->; set_solver].
  destruct (onset_strength y sr) eqn:E8; simpl in *;
    [|injection Hraise as ->; set_solver].
  destruct (spectral_contrast y sr 2048 512) eqn:E9; simpl in *;
    [|injection Hraise as ->; set_solver].
  destruct (py_float tempo) eqn:E10; simpl in *;
    [|injection Hraise as ->; set_solver].
  apply mfcc_rows in E6.
  destruct (py_index_lt mfccs 1) as (m1 & _ & Hm1); [lia|].
  destruct (py_index_lt mfccs 2) as (m2 & _ & Hm2); [lia|].
  rewrite Hm1 in Hraise. simpl in Hraise. rewrite Hm2 in Hraise.
  discriminate Hraise.
Qed.

End ExtractionErrors.

(** On an empty signal the first routine to refuse is [rms]; its exception
    is what [extract_features_from_audio] raises. *)
Lemma extract_features_from_audio_hands_on_errors_witness :
  @extract_features_from_audio Sample.librosa Sample.numpy [] 22050
  = Raise (Exn LibraryError "empty signal" None)
  ∧ @rms Sample.librosa [] 2048 512
    = Raise (Exn LibraryError "empty signal" None).
Proof.
  assert (Hraise :
    @extract_features_from_audio Sample.librosa Sample.numpy [] 22050
    = Raise (Exn LibraryError "empty signal" None)) by reflexivity.
  split; [exact Hraise|].
  destruct (@extract_features_from_audio_hands_on_errors
              Sample.librosa Sample.numpy _ _ _ Hraise) as [[Hsr _]|_].
  - discriminate Hsr.
  - reflexivity.
Defined.

(** ** Labels at load time (jsdbk.py) *)

(** On a string of ASCII characters [chars] gives one item per byte. *)
Lemma chars_ascii (s : string) :
  Forall (λ c, nat_of_ascii c < 128)%nat (list_ascii_of_string s) →
  chars s = map (λ c, String c EmptyString) (list_ascii_of_string s).
Proof.
  induction s as [|c s IH]; [done|].
  intros Hs. simpl in Hs. apply Forall_cons in Hs as [_ Hs].
  cbn [chars]. rewrite (IH Hs).
  destruct s as [|c' s']; [done|].
  cbn [list_ascii_of_string map starts_with_continuation] in *.
  apply Forall_cons in Hs as [Hc' _].
  replace (is_continuation c') with false; [done|].
  destruct c' as [b0 b1 b2 b3 b4 b5 b6 [|]]; [|by destruct b6].
  exfalso. revert Hc'. destruct b0, b1, b2, b3, b4, b5, b6; vm_compute; lia.
Qed.

(** A character of two bytes (U+00E9, bytes C3 A9) between two ASCII ones
    is one item. *)
Lemma chars_two_byte_character :
  chars (String "a" (String "195" (String "169" (String "b" EmptyString))))
  = [ "a"; String "195" (String "169" EmptyString); "b" ].
Proof. reflexivity. Qed.

(** X4.  When label resolution returns, [MOODS] is neither [None] nor an
    empty list, and the log is either the single line naming the labels, or
    that line after the warning, and then the labels are the four defaults. *)
Theorem resolve_moods_never_leaves_labels_empty
    (bundle : pickled) (classifier : pyval)
    (m : moods_val) (lines : list log_record) :
  resolve_moods bundle classifier = Ok (m, lines) →
  none_or_empty_list m = false
  ∧ (lines = [LogInfo "Loaded moods: %s"]
     ∨ (m = MList ["calm"; "energetic"; "happy"; "sad"]
        ∧ lines =
            [LogWarning
               "Model moods not found in bundle; falling back to default labels %s";
             LogInfo "Loaded moods: %s"])).
Proof.
  unfold resolve_moods, mbind, result_bind. intros Hres.
  match type of Hres with
  | rbind ?r _ = _ => destruct r as [m0|e0]; simpl in Hres; [|discriminate Hres]
  end.
  destruct (none_or_empty_list m0) eqn:Hbundle; simpl in Hres.
  - destruct (getattr_classes_ classifier) as [|s|items| |t]; simpl in Hres.
    + injection Hres as <- <-. split; [done|]. right. done.
    + destruct (chars s) eqn:Hs; simpl in Hres; injection Hres as <- <-.
      * split; [done|]. by right.
      * split; [done|]. by left.
    + destruct items as [|item items]; simpl in Hres; injection Hres as <- <-.
      * split; [done|]. by right.
      * split; [done|]. by left.
    + discriminate Hres.
    + discriminate Hres.
  - rewrite Hbundle in Hres. injection Hres as <- <-. split; [done|by left].
Qed.



(** With an empty bundle and a classifier without class list the labels are
    the defaults, after a warning. *)
Lemma resolve_moods_never_leaves_labels_empty_witness :
  ∃ m lines,
    resolve_moods (PkDict ∅) (VLabels PNone) = Ok (m, lines)
    ∧ none_or_empty_list m = false
    ∧ length lines = 2%nat.
Proof.
  assert (Hres :
    resolve_moods (PkDict ∅) (VLabels PNone)
    = Ok (MList default_moods,
          [LogWarning
             "Model moods not found in bundle; falling back to default labels %s";
           LogInfo "Loaded moods: %s"])) by reflexivity.
  eexists _, _. split; [exact Hres|].
  split; [|reflexivity].
  exact (proj1 (resolve_moods_never_leaves_labels_empty _ _ _ _ Hres)).
Defined.

Section StringLabels.
Context `{Host} `{Librosa} `{Numpy} `{Pickle}.

(** X6.  A bundle whose ["classes"] field is a string is loaded with that
    string as [MOODS]; at prediction time the labels are then its
    characters, one label each, whenever the classifier returns as many
    probabilities as the string has characters. *)
Theorem string_classes_are_split_into_characters
    (here : string) (fs : FS) (f : file) (d : gmap string pyval) (s : string) :
  fs !! MODEL_PATH here = Some f →
  readable f = true →
  pickle_load (data f) = Ok (PkDict d) →
  d !! "classes" = Some (VLabels (PStr s)) →
  ∃ st,
    import_jsdbk here fs = Ok st
    ∧ MOODS st = MStr s
    ∧ ∀ probs, length probs = length (chars s) →
        aligned_labels st probs = Ok (chars s).
Proof.
  intros Hf Hr Hp Hd.
  unfold import_jsdbk, open_rb, mbind, result_bind.
  rewrite Hf, Hr. simpl. rewrite Hp. simpl.
  unfold resolve_moods. rewrite Hd. simpl.
  eexists. split; [done|]. split; [done|].
  intros probs Hlen. unfold aligned_labels, mbind, result_bind. simpl.
  rewrite bool_decide_eq_false_2; [done|]. lia.
Qed.

End StringLabels.

(** The bundle says [classes = "sad"]: the labels of a three-way
    classifier are [s], [a], [d]. *)
Lemma string_classes_are_split_into_characters_witness :
  ∃ st,
    @import_jsdbk
      (Sample.pickle (Sample.bundle_of (PStr "sad") PNone PNone))
      "app" {[ MODEL_PATH "app" := File true [] ]} = Ok st
    ∧ @aligned_labels st [0.5%float; 0.25%float; 0.25%float]
      = Ok ["s"; "a"; "d"].
Proof.
  edestruct (@string_classes_are_split_into_characters
               (Sample.pickle (Sample.bundle_of (PStr "sad") PNone PNone))
               "app" {[ MODEL_PATH "app" := File true [] ]})
    as (st & Himport & _ & Hlabels);
    [apply lookup_singleton_eq|reflexivity..|].
  exists st. split; [exact Himport|].
  exact (Hlabels [0.5%float; 0.25%float; 0.25%float] eq_refl).
Defined.

(** [repr] of a label: plain, with a single quote in it, with a backslash
    in it. *)
Lemma py_repr_plain : py_repr "calm" = "'calm'".
Proof. reflexivity. Qed.

Lemma py_repr_single_quote :
  py_repr "it's" = String double_quote ("it's" ++ String double_quote EmptyString).
Proof. reflexivity. Qed.

Lemma py_repr_backslash :
  py_repr (String backslash "n")
  = String single_quote (String backslash (String backslash "n'")).
Proof. reflexivity. Qed.

(** The text of the [AttributeError] when the scaler is [None]. *)
Lemma call_transform_of_None (x : list (list float)) :
  call_transform (VLabels PNone) x
  = Raise (Exn AttributeError
             "'NoneType' object has no attribute 'transform'" None).
Proof. reflexivity. Qed.

(** X7.  With a list of labels loaded, [verify_model_moods(required)]
    returns [True] exactly when every required label is among them, never
    returns [False], and raises [ModelLoadError] in every other case. *)
Theorem verify_model_moods_required_labels
    (st : module_state) (labels required : list string) :
  MOODS st = MList labels →
  (verify_model_moods st (Some required) = Ok true
     ↔ ∀ x, x ∈ required → x ∈ labels)
  ∧ verify_model_moods st (Some required) ≠ Ok false
  ∧ (verify_model_moods st (Some required) ≠ Ok true →
     raises ModelLoadError (verify_model_moods st (Some required))).
Proof.
  intros HM. unfold verify_model_moods, mbind, result_bind.
  rewrite HM. simpl.
  destruct (decide (list_to_set required ⊆@{gset string} list_to_set labels))
    as [Hsub|Hsub].
  - rewrite bool_decide_eq_true_2 by done. split_and!; [|done|done].
    split; [|done]. intros _ x Hx.
    apply (elem_of_list_to_set (C := gset string)).
    apply Hsub. by apply elem_of_list_to_set.
  - rewrite bool_decide_eq_false_2 by done. split_and!; [|done|].
    + split; [done|]. intros Hall. destruct Hsub. intros x Hx.
      apply elem_of_list_to_set. apply Hall.
      by apply (elem_of_list_to_set (C := gset string)).
    + intros _. eexists _, _. done.
Qed.

(** Three labels loaded, two of them required: accepted; a fourth one
    required: refused. *)
Lemma verify_model_moods_required_labels_witness :
  verify_model_moods (Sample.state ["calm"; "happy"; "sad"] PNone)
    (Some ["sad"; "calm"]) = Ok true
  ∧ raises ModelLoadError
      (verify_model_moods (Sample.state ["calm"; "happy"; "sad"] PNone)
         (Some ["sad"; "angry"])).
Proof.
  split.
  - apply (proj1 (verify_model_moods_required_labels
                    (Sample.state ["calm"; "happy"; "sad"] PNone)
                    ["calm"; "happy"; "sad"] ["sad"; "calm"] eq_refl)).
    intros x Hx. set_solver.
  - apply (proj2 (proj2 (verify_model_moods_required_labels
                    (Sample.state ["calm"; "happy"; "sad"] PNone)
                    ["calm"; "happy"; "sad"] ["sad"; "angry"] eq_refl))).
    vm_compute. discriminate.
Defined.

(** ** What a prediction presupposes (jsdbk.py) *)

(** Storing under a key keeps the keys distinct, adds at most one entry, and
    every entry afterwards is the new one or an old one. *)
Lemma dict_set_invariants {V} (k : string) (v : V) (d : pydict V) :
  (NoDup (dict_keys d) → NoDup (dict_keys (dict_set k v d)))
  ∧ (length (dict_set k v d) ≤ S (length d))%nat
  ∧ (∀ kv, kv ∈ dict_set k v d → kv = (k, v) ∨ kv ∈ d)
  ∧ (∀ k', k' ∈ dict_keys (dict_set k v d) → k' = k ∨ k' ∈ dict_keys d).
Proof.
  unfold dict_keys. induction d as [|[k0 v0] d (IHnd & IHlen & IHin & IHkey)]; csimpl.
  - split_and!; [intros _; apply NoDup_singleton|lia|set_solver|set_solver].
  - destruct (decide (k = k0)) as [->|Hne]; csimpl.
    + split_and!; [done|lia|set_solver|set_solver].
    + split_and!.
      * rewrite !NoDup_cons. intros [Hk0 Hnd]. split; [|by apply IHnd].
        intros Hin. apply IHkey in Hin as [->|Hin]; done.
      * lia.
      * intros kv [->|Hin]%elem_of_cons; [set_solver|].
        apply IHin in Hin. set_solver.
      * intros k' [->|Hin]%elem_of_cons; [set_solver|].
        apply IHkey in Hin. set_solver.
Qed.

Lemma dict_update_invariants {V} (pairs : list (string * V)) (d : pydict V) :
  let d' := fold_left (λ d kv, dict_set kv.1 kv.2 d) pairs d in
  (NoDup (dict_keys d) → NoDup (dict_keys d'))
  ∧ (length d' ≤ length d + length pairs)%nat
  ∧ (∀ kv, kv ∈ d' → kv ∈ pairs ∨ kv ∈ d).
Proof.
  revert d. induction pairs as [|[k v] pairs IH]; intros d; csimpl.
  - split_and!; [done|lia|by right].
  - destruct (IH (dict_set k v d)) as (IHnd & IHlen & IHin).
    destruct (dict_set_invariants k v d) as (Hnd & Hlen & Hin & _).
    split_and!.
    + intros Hd. by apply IHnd, Hnd.
    + lia.
    + intros kv Hkv. apply IHin in Hkv as [Hkv|Hkv]; [set_solver|].
      apply Hin in Hkv as [->|Hkv]; set_solver.
Qed.

Section PredictionNeeds.
Context `{Host} `{Librosa} `{Numpy} `{Pickle}.

(** A second look at a run of [predict_mood] that returned: the objects it
    called and the checks it passed. *)
Lemma predict_mood_returns_checked
    (st : module_state) (audio_path : string) (fs fs' : FS) (r : prediction) :
  predict_mood st audio_path fs = (Ok r, fs') →
  ∃ y features x predicted label proba probs labels,
    load_audio audio_path fs = (Ok (y, sr_22050), fs')
    ∧ extract_features_from_audio y sr_22050 = Ok features
    ∧ call_transform (scaler st) features = Ok x
    ∧ call_predict (classifier st) x = Ok predicted
    ∧ predicted !! 0%nat = Some label
    ∧ mood r = py_str label
    ∧ call_predict_proba (classifier st) x = Ok proba
    ∧ proba !! 0%nat = Some probs
    ∧ is_ok (np_max probs) = true
    ∧ aligned_labels st probs = Ok labels
    ∧ probabilities r = dict_of (zip labels probs).
Proof.
  unfold predict_mood, try_except, bind, lift, raise. intros Hrun.
  destruct (load_audio audio_path fs) as [[[y sr]|e] fs1] eqn:Hload;
    [|discriminate Hrun].
  pose proof (load_audio_rate _ _ _ _ _ Hload) as ->.
  match type of Hrun with
  | match ?chain with Ok _ => _ | Raise _ => _ end = _ =>
      destruct chain as [r'|e] eqn:Hchain; [|discriminate Hrun]
  end.
  injection Hrun as -> ->.
  bind_ok Hchain. injection Hchain as <-. simpl.
  eexists _, _, _, _, _, _, _, _.
  split_and!; eauto using py_index_ok.
  match goal with E : np_max _ = Ok _ |- _ => by rewrite E end.
Qed.

(** X8.  [predict_mood] returns a prediction only when the module's scaler
    is a scaler object and its classifier a classifier object, the classifier
    predicted at least one label, whose text is the mood returned, and the
    probability vector is not empty. *)
Theorem predict_mood_needs_scaler_and_classifier
    (st : module_state) (audio_path : string) (fs fs' : FS) (r : prediction) :
  predict_mood st audio_path fs = (Ok r, fs') →
  (∃ s, scaler st = VScaler s)
  ∧ (∃ c x predicted label,
       classifier st = VClassifier c
       ∧ predict c x = Ok predicted
       ∧ predicted !! 0%nat = Some label
       ∧ mood r = py_str label)
  ∧ (∃ probs, probability_vector st audio_path fs probs ∧ probs ≠ []).
Proof.
  intros Hrun.
  destruct (predict_mood_returns_checked _ _ _ _ _ Hrun)
    as (y & features & x & predicted & label & proba & probs & labels
        & Hload & Hfeat & Hscale & Hpred & Hlabel & Hmood & Hproba & Hrow
        & Hmax & _).
  split_and!.
  - destruct (scaler st); try discriminate Hscale. by eexists.
  - destruct (classifier st) as [|c|]; try discriminate Hpred.
    exists c, x, predicted, label. done.
  - exists probs. split.
    + exists y, sr_22050, x, proba. rewrite Hload.
      unfold scaled_features, mbind, result_bind. rewrite Hfeat. done.
    + intros ->. discriminate Hmax.
Qed.

(** X9.  A bundle without a ["scaler"] entry, or without a ["model"]
    entry, is imported all the same; from then on no call of
    [predict_mood] returns a prediction. *)
Theorem bundle_without_model_fails_at_first_request
    (here : string) (fs : FS) (f : file) (d : gmap string pyval)
    (st : module_state) :
  fs !! MODEL_PATH here = Some f →
  pickle_load (data f) = Ok (PkDict d) →
  import_jsdbk here fs = Ok st →
  d !! "scaler" = None ∨ d !! "model" = None →
  ∀ audio_path fs', is_ok (predict_mood st audio_path fs').1 = false.
Proof.
  intros Hf Hp Himport Hmissing audio_path fs'.
  unfold import_jsdbk, open_rb, mbind, result_bind in Himport.
  rewrite Hf in Himport. destruct (readable f); [|discriminate Himport].
  simpl in Himport. rewrite Hp in Himport. simpl in Himport.
  destruct (resolve_moods _ _) as [[m lines]|]; [|discriminate Himport].
  simpl in Himport. injection Himport as <-.
  destruct (predict_mood _ audio_path fs') as [[r|e] fs''] eqn:Hrun; [|done].
  destruct (predict_mood_returns_checked _ _ _ _ _ Hrun)
    as (y & features & x & predicted & label & proba & probs & labels
        & _ & _ & Hscale & Hpred & _).
  simpl in Hscale, Hpred.
  destruct Hmissing as [Hnone|Hnone]; rewrite Hnone in *; discriminate.
Qed.

(** X10.  In every prediction the probability map has pairwise distinct
    keys, no more entries than there are labels or probabilities, and each
    entry pairs one of the labels with one of the classifier's
    probabilities. *)
Theorem predict_mood_probability_map_entries
    (st : module_state) (audio_path : string) (fs fs' : FS) (r : prediction) :
  predict_mood st audio_path fs = (Ok r, fs') →
  ∃ probs labels,
    probability_vector st audio_path fs probs
    ∧ aligned_labels st probs = Ok labels
    ∧ NoDup (dict_keys (probabilities r))
    ∧ (length (probabilities r) ≤ Nat.min (length labels) (length probs))%nat
    ∧ ∀ k v, (k, v) ∈ probabilities r → k ∈ labels ∧ v ∈ probs.
Proof.
  intros Hrun.
  destruct (predict_mood_returns_checked _ _ _ _ _ Hrun)
    as (y & features & x & predicted & label & proba & probs & labels
        & Hload & Hfeat & Hscale & _ & _ & _ & Hproba & Hrow & _
        & Hlabels & Hmap).
  exists probs, labels.
  destruct (dict_update_invariants (zip labels probs) []) as (Hnd & Hlen & Hin).
  fold (dict_of (zip labels probs)) in Hnd, Hlen, Hin. rewrite <- Hmap in *.
  split_and!; [|done| | |].
  - exists y, sr_22050, x, proba. rewrite Hload.
    unfold scaled_features, mbind, result_bind. rewrite Hfeat. done.
  - apply Hnd. apply NoDup_nil_2.
  - rewrite length_zip in Hlen. simpl in Hlen. lia.
  - intros k v Hkv. apply Hin in Hkv as [Hkv|Hkv]; [|by apply elem_of_nil in Hkv].
    split; [by eapply elem_of_zip_l|by eapply elem_of_zip_r].
Qed.

End PredictionNeeds.

(** A request served by the sample classifier: its mood is the text of
    the predicted label. *)
Lemma predict_mood_needs_scaler_and_classifier_witness :
  ∃ r,
    (@predict_mood (Sample.host true true) Sample.librosa Sample.numpy
       (Sample.state default_moods Sample.four_labels) "song.wav"
       {["song.wav" := Sample.wav_file]}).1 = Ok r
    ∧ mood r = "energetic".
Proof.
  eassert (Hrun : @predict_mood (Sample.host true true) Sample.librosa
                    Sample.numpy
                    (Sample.state default_moods Sample.four_labels)
                    "song.wav" {["song.wav" := Sample.wav_file]} = (Ok _, _))
    by (vm_compute; reflexivity).
  eexists. split; [by rewrite Hrun|].
  destruct (@predict_mood_needs_scaler_and_classifier (Sample.host true true)
              Sample.librosa Sample.numpy _ _ _ _ _ Hrun)
    as (_ & (c & x & predicted & label & Hc & Hpred & Hlabel & Hmood) & _).
  injection Hc as <-. simpl in Hpred. injection Hpred as <-.
  injection Hlabel as <-. exact Hmood.
Defined.

(** An empty bundle is imported with the default labels, and then no
    request can be served. *)
Lemma bundle_without_model_fails_at_first_request_witness :
  ∃ st,
    @import_jsdbk (Sample.pickle (PkDict ∅)) "app"
      {[ MODEL_PATH "app" := File true [] ]} = Ok st
    ∧ MOODS st = MList default_moods
    ∧ is_ok (@predict_mood (Sample.host true true) Sample.librosa Sample.numpy
               st "song.wav" {["song.wav" := Sample.wav_file]}).1 = false.
Proof.
  eexists. split; [vm_compute; reflexivity|]. split; [reflexivity|].
  eapply (@bundle_without_model_fails_at_first_request (Sample.host true true)
            Sample.librosa Sample.numpy (Sample.pickle (PkDict ∅)) "app"
            {[ MODEL_PATH "app" := File true [] ]} (File true []) ∅).
  - apply lookup_singleton_eq.
  - reflexivity.
  - vm_compute. reflexivity.
  - by left.
Defined.

(** Two of the four loaded labels are the same word: the map has three
    entries. *)
Lemma predict_mood_probability_map_entries_witness :
  ∃ r,
    (@predict_mood (Sample.host true true) Sample.librosa Sample.numpy
       (Sample.state ["calm"; "calm"; "happy"; "sad"] PNone) "song.wav"
       {["song.wav" := Sample.wav_file]}).1 = Ok r
    ∧ length (probabilities r) = 3%nat
    ∧ NoDup (dict_keys (probabilities r)).
Proof.
  eassert (Hrun : @predict_mood (Sample.host true true) Sample.librosa
                    Sample.numpy
                    (Sample.state ["calm"; "calm"; "happy"; "sad"] PNone)
                    "song.wav" {["song.wav" := Sample.wav_file]} = (Ok _, _))
    by (vm_compute; reflexivity).
  eexists. split; [by rewrite Hrun|]. split; [reflexivity|].
  destruct (@predict_mood_probability_map_entries (Sample.host true true)
              Sample.librosa Sample.numpy _ _ _ _ _ Hrun)
    as (probs & labels & _ & _ & Hnd & _).
  exact Hnd.
Defined.

(** ** The endpoint of app.py *)

Section EndpointOutcomes.
Context `{Host} `{Librosa} `{Numpy}.
Variable st : module_state.

(** The handler, by the outcome of its check. *)
Lemma predict_handler_cases (file : App.UploadFile) (fs : FS) :
  App.predict st file fs =
  if match App.content_type file with
     | Some ct => App.startswith ct "audio/"
     | None => false
     end
     || bool_decide (App.content_type file = Some "application/octet-stream")
     || existsb (App.endswith (App.lower (App.filename file)))
          App.audio_extensions
  then
    let outcome :=
      predict_mood st App.temp_path
        (<[App.temp_path := File true (App.file_data file)]> fs) in
    (match outcome.1 with
     | Ok r => Ok r
     | Raise e => Raise (http_error_of e)
     end,
     delete App.temp_path outcome.2)
  else
    (Raise (Exn (HTTPException 400) "Unsupported audio format" None),
     delete App.temp_path fs).
Proof.
  unfold App.predict. rewrite try_finally_remove.
  unfold try_except, bind, raise, App.write_file.
  destruct (_ || _ || _); simpl; [|done].
  destruct (predict_mood _ _ _) as [[r|e] fs1]; simpl; [done|].
  unfold http_error_of. by destruct (exn_kind_of e).
Qed.

(** X11.  Whatever goes wrong, the handler raises an [HTTPException]: no
    other exception leaves it. *)
Theorem predict_raises_only_http_errors
    (file : App.UploadFile) (fs : FS) (e : exn) :
  (App.predict st file fs).1 = Raise e →
  ∃ status, exn_kind_of e = HTTPException status.
Proof.
  rewrite predict_handler_cases.
  destruct (_ || _ || _); cbv zeta; simpl.
  - destruct (predict_mood _ _ _).1 as [r|e0]; [discriminate|].
    intros [= <-]. unfold http_error_of.
    destruct (exn_kind_of e0) eqn:Hkind; simpl; eauto.
  - intros [= <-]. simpl. eauto.
Qed.

(** X12.  An accepted upload that [load_audio] cannot decode is answered
    with status 415, the detail being the text of the [AudioDecodeError]. *)
Theorem predict_answers_undecodable_upload_with_415
    (file : App.UploadFile) (fs : FS) (e : exn) :
  upload_accepted file →
  (load_audio App.temp_path
     (<[App.temp_path := File true (App.file_data file)]> fs)).1 = Raise e →
  (App.predict st file fs).1
  = Raise (Exn (HTTPException 415) (str_exn e) None).
Proof.
  intros Hacc%upload_accepted_check Hload.
  rewrite predict_handler_cases, Hacc. cbv zeta. simpl.
  destruct (predict_mood_after_load st App.temp_path
              (<[App.temp_path := File true (App.file_data file)]> fs))
    as [_ Herr].
  rewrite (Herr e Hload).
  unfold http_error_of.
  by rewrite (load_audio_only_decode_errors _ _ _ Hload).
Qed.

(** X13.  When the handler is done, by a response or by an error, no file
    is left at the temporary path: neither this upload nor a file that was
    there before. *)
Theorem predict_leaves_no_temporary_file (file : App.UploadFile) (fs : FS) :
  (App.predict st file fs).2 !! App.temp_path = None.
Proof.
  rewrite predict_handler_cases.
  destruct (_ || _ || _); cbv zeta; simpl; apply lookup_delete_eq.
Qed.


End EndpointOutcomes.

(** An MP3 upload on a host without ffmpeg: status 415. *)
Lemma predict_answers_undecodable_upload_with_415_witness :
  (@App.predict (Sample.host false true) Sample.librosa Sample.numpy
     (Sample.state default_moods Sample.four_labels)
     (App.Upload (Some "audio/mpeg") "song.mp3" (data Sample.mp3_file)) ∅).1
  = Raise (Exn (HTTPException 415)
             "Audio decode failed: no suitable backend found (install ffmpeg)"
             None).
Proof.
  apply (@predict_answers_undecodable_upload_with_415 (Sample.host false true)
           Sample.librosa Sample.numpy
           (Sample.state default_moods Sample.four_labels)
           (App.Upload (Some "audio/mpeg") "song.mp3" (data Sample.mp3_file)) ∅
           (Exn AudioDecodeError
              "Audio decode failed: no suitable backend found (install ffmpeg)"
              (Some (Exn LibraryError "could not decode" None)))).
  - apply upload_accepted_check. reflexivity.
  - reflexivity.
Defined.

(** A text file is refused with status 400, an [HTTPException]. *)
Lemma predict_raises_only_http_errors_witness :
  ∃ status,
    exn_kind_of (Exn (HTTPException 400) "Unsupported audio format" None)
    = HTTPException status.
Proof.
  apply (@predict_raises_only_http_errors (Sample.host true true)
           Sample.librosa Sample.numpy
           (Sample.state default_moods Sample.four_labels)
           (App.Upload (Some "text/plain") "notes.txt" []) ∅).
  reflexivity.
Defined.

(** ** The two extractors, slot by slot *)

Section ExtractorsAgree.
Context `{Host} `{Librosa} `{Numpy}.

(** X15.  On the same decoded signal the two extractors hold the same number
    in ten of the fifteen slots: tempo, RMS mean, centroid mean,
    zero-crossing mean, rolloff mean, chroma mean, contrast mean, RMS
    deviation, rolloff deviation and chroma deviation. *)
Theorem extractors_agree_on_ten_slots
    (fs : FS) (audio_path : string) (y fa fb : list float) :
  librosa_load fs audio_path = Ok y →
  extract_features_from_audio y sr_22050 = Ok [fa] →
  extract_anti_overfitting_features fs audio_path = Some fb →
  ∀ i : nat, i ∈ [0; 1; 2; 3; 4; 7; 9; 11; 12; 13]%nat → fa !! i = fb !! i.
Proof.
  intros Hload Ha Hb.
  unfold extract_anti_overfitting_features in Hb.
  rewrite Hload in Hb. unfold mbind, result_bind in Hb. simpl in Hb.
  destruct (anti_overfitting_features y sr_22050) as [fb'|] eqn:Hb';
    [injection Hb as ->|discriminate Hb].
  unfold anti_overfitting_features in Hb'. bind_ok Hb'.
  unfold extract_features_from_audio, mbind, result_bind in Ha.
  rewrite reraise_id in Ha.
  repeat match type of Ha with
         | context [rbind ?c _] =>
             match goal with
             | E : c = Ok _ |- _ => rewrite E in Ha; simpl in Ha
             end
         end.
  bind_ok Ha.
  injection Ha as <-. injection Hb' as <-.
  intros i Hi.
  repeat (apply elem_of_cons in Hi as [->|Hi]; [reflexivity|]).
  by apply elem_of_nil in Hi.
Qed.

End ExtractorsAgree.

(** On the sample signal both extractors report the same RMS mean. *)
Lemma extractors_agree_on_ten_slots_witness :
  ∃ fa fb,
    @extract_features_from_audio Sample.librosa Sample.numpy
      [0.5%float; (-0.25)%float; 1%float] sr_22050 = Ok [fa]
    ∧ @extract_anti_overfitting_features (Sample.host true true) Sample.librosa
        Sample.numpy {["song.wav" := Sample.wav_file]} "song.wav" = Some fb
    ∧ fa !! 1%nat = fb !! 1%nat
    ∧ fa !! 1%nat = Some 0.58333333333333337%float.
Proof.
  eexists _, _.
  split; [vm_compute; reflexivity|].
  split; [vm_compute; reflexivity|].
  split; [|reflexivity].
  eapply (@extractors_agree_on_ten_slots (Sample.host true true)
            Sample.librosa Sample.numpy {["song.wav" := Sample.wav_file]}
            "song.wav"); [vm_compute; reflexivity..|].
  set_solver.
Defined.

(** ** The second service (smart_playlist_enhanced_audio.py) *)

Lemma argmax_scan_bound (mp : float) (best i : nat) (rest : list float) :
  (best < i)%nat →
  (Enhanced.argmax_scan mp best i rest < i + length rest)%nat.
Proof.
  revert mp best i. induction rest as [|x rest IH]; intros mp best i Hbest; simpl.
  - lia.
  - destruct (PrimFloat.leb x mp).
    + specialize (IH mp best (S i)). lia.
    + destruct (PrimFloat.is_nan x); [lia|].
      specialize (IH x i (S i)). lia.
Qed.

Lemma np_argmax_bound (a : list float) (i : nat) :
  Enhanced.np_argmax a = Ok i → (i < length a)%nat.
Proof.
  destruct a as [|x xs]; simpl; [discriminate|].
  intros [= <-]. destruct (PrimFloat.is_nan x); [lia|].
  pose proof (argmax_scan_bound x 0 1 xs). lia.
Qed.

Section SecondService.
Import Enhanced.
Context `{Host} `{Librosa} `{Numpy} `{Pickle} `{Python} `{Pydantic}.

(** The handler, by the outcome of storing the upload, of the feature
    extraction and of the rest of its body. *)
Lemma predict_mood_handler_cases
    (md : pickled) (upload : App.UploadFile) (fs : FS) :
  Enhanced.predict_mood md upload fs =
  let temp_path := "temp_" ++ App.filename upload in
  let stored := <[temp_path := File true (App.file_data upload)]> fs in
  (match open_wb_error fs temp_path with
   | Some e => Raise (internal_error_of e)
   | None =>
       match extract_anti_overfitting_features stored temp_path with
       | None => Raise (Exn (HTTPException 400) "Feature extraction failed" None)
       | Some features =>
           match (respond md temp_path features stored).1 with
           | Ok response => Ok response
           | Raise e => Raise (internal_error_of e)
           end
       end
   end,
   delete temp_path fs).
Proof.
  cbv zeta. unfold Enhanced.predict_mood, try_except, bind at 1.
  unfold store_upload.
  set (temp_path := "temp_" ++ App.filename upload).
  set (stored := <[temp_path := File true (App.file_data upload)]> fs).
  assert (Hclean : ∀ (e : exn) (fs0 : FS), delete temp_path fs0 = delete temp_path fs →
            (bind (cleanup temp_path) (λ _, raise e) : M PredictionResponse)
              fs0
            = (Raise e, delete temp_path fs)).
  { intros e fs0 Hfs0. unfold bind, cleanup. rewrite remove_if_exists.
    unfold raise. by rewrite Hfs0. }
  assert (Hstored : delete temp_path stored = delete temp_path fs)
    by (unfold stored; by rewrite delete_insert_eq).
  destruct (open_wb_error fs temp_path) as [e|] eqn:Hopen.
  { unfold internal_error_of.
    destruct (exn_kind_of e) eqn:Hkind; by rewrite Hclean. }
  unfold bind at 1.
  destruct (extract_anti_overfitting_features stored temp_path) as [features|].
  - unfold bind at 1, respond.
    match goal with
    | |- context [(?chain, stored)] =>
        destruct chain as [response|e] eqn:Hchain
    end; simpl.
    + unfold bind, os_remove, ret, stored. rewrite lookup_insert_eq.
      by rewrite delete_insert_eq.
    + unfold internal_error_of.
      destruct (exn_kind_of e); by rewrite Hclean.
  - unfold raise at 1. simpl. by rewrite Hclean.
Qed.

End SecondService.

Lemma mapM_result_length {A B} (f : A → result B) (l : list A) (k : list B) :
  mapM f l = Ok k → length k = length l.
Proof.
  revert k. induction l as [|x l IH]; intros k; simpl.
  - by intros [= <-].
  - unfold mbind, result_bind, mret, result_ret.
    destruct (f x); simpl; [|discriminate].
    destruct (mapM f l); simpl; [|discriminate].
    intros [= <-]. simpl. by rewrite (IH _ eq_refl).
Qed.

Section SecondServiceFacts.
Import Enhanced.
Context `{Host} `{Librosa} `{Numpy} `{Pickle} `{Python} `{Pydantic}.

(** X16.  The handler of the second service leaves the file system as it
    found it, except that no file exists at [temp_<filename>] any more:
    the stored upload is removed on every path, and so is a file of that
    name that was there before. *)
Theorem second_service_removes_stored_upload
    (md : pickled) (upload : App.UploadFile) (fs : FS) :
  (Enhanced.predict_mood md upload fs).2
  = delete ("temp_" ++ App.filename upload) fs.
Proof. by rewrite predict_mood_handler_cases. Qed.

(** X17.  An upload that could be stored and that the decoder refuses is
    answered by the second service with status 400 and the detail
    [Feature extraction failed] (where app.py answers 415), whatever model
    is loaded. *)
Theorem second_service_answers_undecodable_upload_with_400
    (md : pickled) (upload : App.UploadFile) (fs : FS) :
  open_wb_error fs ("temp_" ++ App.filename upload) = None →
  is_ok (librosa_load
           (<["temp_" ++ App.filename upload
                := File true (App.file_data upload)]> fs)
           ("temp_" ++ App.filename upload)) = false →
  (Enhanced.predict_mood md upload fs).1
  = Raise (Exn (HTTPException 400) "Feature extraction failed" None).
Proof.
  intros Hopen Hload. rewrite predict_mood_handler_cases. cbv zeta. simpl.
  rewrite Hopen.
  unfold extract_anti_overfitting_features, mbind, result_bind.
  destruct (librosa_load _ _); [discriminate Hload|done].
Qed.

(** X18.  Every exception that leaves the handler of the second service is
    an [HTTPException]. *)
Theorem second_service_raises_only_http_errors
    (md : pickled) (upload : App.UploadFile) (fs : FS) (e : exn) :
  (Enhanced.predict_mood md upload fs).1 = Raise e →
  ∃ status, exn_kind_of e = HTTPException status.
Proof.
  rewrite predict_mood_handler_cases. cbv zeta. cbn [fst].
  assert (Hinternal : ∀ e0, ∃ status,
            exn_kind_of (internal_error_of e0) = HTTPException status).
  { intros e0. unfold internal_error_of.
    destruct (exn_kind_of e0) eqn:Hkind; simpl; eauto. }
  destruct (open_wb_error _ _) as [e0|]; [by intros [= <-]|].
  destruct (extract_anti_overfitting_features _ _) as [features|].
  - destruct (respond md _ _ _).1 as [response|e0]; [discriminate|].
    by intros [= <-].
  - intros [= <-]. simpl. eauto.
Qed.

(** What the body of the handler went through when it produced a
    response. *)
Lemma respond_returns
    (md : pickled) (temp_path : string) (features : list float) (fs : FS)
    (response : PredictionResponse) :
  (respond md temp_path features fs).1 = Ok response →
  ∃ d s c classes x proba mood_probs mood_idx predicted_mood items,
    md = PkDict d
    ∧ d !! "scaler" = Some (VScaler s)
    ∧ d !! "model" = Some (VClassifier c)
    ∧ d !! "classes" = Some classes
    ∧ predict_proba c x = Ok proba
    ∧ proba !! 0%nat = Some mood_probs
    ∧ np_argmax mood_probs = Ok mood_idx
    ∧ mood_probs !! mood_idx = Some (r_confidence response)
    ∧ class_at classes mood_idx = Ok predicted_mood
    ∧ validate_str predicted_mood = Ok (r_mood response)
    ∧ iter_items classes = Ok items
    ∧ fill_percentages 0 items mood_probs [] = Ok (r_mood_percentages response)
    ∧ feature_entries features = Ok (r_audio_features response).
Proof.
  unfold respond. cbn [fst]. intros Hrespond.
  bind_ok Hrespond. injection Hrespond as <-. simpl.
  destruct md as [d|v]; [|by destruct v as [[]| |]].
  simpl in *.
  repeat match goal with
         | E : match d !! ?k with Some _ => _ | None => _ end = Ok _ |- _ =>
             destruct (d !! k) eqn:?; [injection E as ->|discriminate E]
         end.
  match goal with
  | E : call_transform ?v _ = Ok _ |- _ =>
      destruct v as [|?|s]; try discriminate E
  end.
  match goal with
  | E : call_predict_proba ?v _ = Ok _ |- _ =>
      destruct v as [|c|]; try discriminate E; simpl in E
  end.
  eexists d, s, c, _, _, _, _, _, _, _.
  split_and!; eauto using py_index_ok.
Qed.

Lemma predict_mood_handler_returns
    (md : pickled) (upload : App.UploadFile) (fs fs' : FS)
    (response : PredictionResponse) :
  Enhanced.predict_mood md upload fs = (Ok response, fs') →
  ∃ features stored,
    (respond md ("temp_" ++ App.filename upload) features stored).1
    = Ok response.
Proof.
  rewrite predict_mood_handler_cases. cbv zeta. intros Hbody.
  apply (f_equal fst) in Hbody. cbn [fst] in Hbody.
  destruct (open_wb_error _ _); [discriminate Hbody|].
  destruct (extract_anti_overfitting_features _ _) as [features|];
    [|discriminate Hbody].
  destruct (respond md _ features _).1 as [response'|] eqn:Hrespond;
    [|discriminate Hbody].
  injection Hbody as ->. eauto.
Qed.

Lemma ldict_set_keys {V} (k : label_item) (v : V) (d : ldict V) (k' : label_item) :
  k' ∈ (ldict_set k v d).*1 ↔ k' = k ∨ k' ∈ d.*1.
Proof.
  induction d as [|[k0 v0] d IH]; csimpl.
  - set_solver.
  - destruct (decide (k = k0)) as [->|Hne]; csimpl; [set_solver|].
    rewrite elem_of_cons, IH, elem_of_cons. naive_solver.
Qed.

Lemma fill_percentages_returns
    (items : list label_item) (mood_probs : list float)
    (i : nat) (d d' : ldict float) :
  fill_percentages i items mood_probs d = Ok d' →
  (items = [] ∨ i + length items ≤ length mood_probs)%nat
  ∧ ∀ k, k ∈ d'.*1 ↔ k ∈ d.*1 ∨ k ∈ items.
Proof.
  revert i d. induction items as [|item items IH]; intros i d; simpl.
  - intros [= <-]. split; [by left|]. set_solver.
  - unfold mbind, result_bind, py_index.
    destruct (mood_probs !! i) as [p|] eqn:Hp; simpl; [|discriminate].
    intros Hrest. apply IH in Hrest as [Hlen Hkeys].
    apply lookup_lt_Some in Hp. split.
    + right. destruct Hlen as [->|Hlen]; simpl; lia.
    + intros k. rewrite Hkeys, ldict_set_keys, elem_of_cons. naive_solver.
Qed.

(** X19.  The second service returns a response only when the loaded
    model is a dictionary with a scaler under ["scaler"], a classifier under
    ["model"] and an entry ["classes"]; the confidence it reports is the
    entry of the probability vector at the index [np.argmax] chose, the
    mood is the class at the same index, and the response carries fifteen
    feature entries. *)
Theorem second_service_response
    (md : pickled) (upload : App.UploadFile) (fs fs' : FS)
    (response : PredictionResponse) :
  Enhanced.predict_mood md upload fs = (Ok response, fs') →
  ∃ d s c classes x proba mood_probs mood_idx predicted_mood,
    md = PkDict d
    ∧ d !! "scaler" = Some (VScaler s)
    ∧ d !! "model" = Some (VClassifier c)
    ∧ d !! "classes" = Some classes
    ∧ predict_proba c x = Ok proba
    ∧ proba !! 0%nat = Some mood_probs
    ∧ np_argmax mood_probs = Ok mood_idx
    ∧ (mood_idx < length mood_probs)%nat
    ∧ mood_probs !! mood_idx = Some (r_confidence response)
    ∧ class_at classes mood_idx = Ok predicted_mood
    ∧ validate_str predicted_mood = Ok (r_mood response)
    ∧ length (r_audio_features response) = 15%nat.
Proof.
  intros (features & stored & Hrespond)%predict_mood_handler_returns.
  destruct (respond_returns _ _ _ _ _ Hrespond)
    as (d & s & c & classes & x & proba & mood_probs & mood_idx
        & predicted_mood & items & Hfacts).
  exists d, s, c, classes, x, proba, mood_probs, mood_idx, predicted_mood.
  destruct Hfacts as (? & ? & ? & ? & ? & ? & ? & ? & ? & ? & ? & ? & Hentries).
  split_and!; eauto using np_argmax_bound.
  by rewrite (mapM_result_length _ _ _ Hentries), length_seq.
Qed.

(** X23.  In a response of the second service every class of the bundle
    has its entry in the mood percentages, and nothing else has; a response
    is given only when the bundle lists no more classes than the classifier
    returned probabilities. *)
Theorem second_service_percentages_cover_classes
    (md : pickled) (upload : App.UploadFile) (fs fs' : FS)
    (response : PredictionResponse) :
  Enhanced.predict_mood md upload fs = (Ok response, fs') →
  ∃ d c classes x proba mood_probs items,
    md = PkDict d
    ∧ d !! "model" = Some (VClassifier c)
    ∧ d !! "classes" = Some classes
    ∧ predict_proba c x = Ok proba
    ∧ proba !! 0%nat = Some mood_probs
    ∧ iter_items classes = Ok items
    ∧ (length items ≤ length mood_probs)%nat
    ∧ ∀ k, k ∈ (r_mood_percentages response).*1 ↔ k ∈ items.
Proof.
  intros (features & stored & Hrespond)%predict_mood_handler_returns.
  destruct (respond_returns _ _ _ _ _ Hrespond)
    as (d & s & c & classes & x & proba & mood_probs & mood_idx
        & predicted_mood & items & Hfacts).
  exists d, c, classes, x, proba, mood_probs, items.
  destruct Hfacts as (? & ? & ? & ? & ? & ? & ? & ? & ? & ? & ? & Hfill & _).
  apply fill_percentages_returns in Hfill as [Hlen Hkeys].
  split_and!; eauto.
  - destruct Hlen as [->|Hlen]; simpl in *; lia.
  - intros k. rewrite Hkeys. set_solver.
Qed.

(** X20.  When the model file is missing at start-up, the service starts all
    the same: [model_data] stays [None], [model_path] is set, and from then
    on no request gets a response. *)
Theorem second_service_starts_without_model (here : string) (fs : FS) :
  fs !! MODEL_PATH here = None →
  model_data (startup_event here fs initial_globals) = py_None
  ∧ model_path (startup_event here fs initial_globals) = Some (MODEL_PATH here)
  ∧ ∀ upload fs',
      is_ok (Enhanced.predict_mood
               (model_data (startup_event here fs initial_globals))
               upload fs').1 = false.
Proof.
  intros Hmissing. unfold startup_event, load_model.
  rewrite bool_decide_eq_false_2 by (rewrite Hmissing; by intros [? ?]).
  simpl. split_and!; [done..|].
  intros upload fs'.
  rewrite predict_mood_handler_cases. cbv zeta. simpl.
  destruct (open_wb_error _ _); [done|].
  by destruct (extract_anti_overfitting_features _ _).
Qed.

End SecondServiceFacts.

Section SecondServiceStartup.
Import Enhanced.
Context `{Host} `{Librosa} `{Numpy} `{Pickle} `{Python} `{Pydantic}.

(** X21.  A bundle that is a non-empty dictionary without a ["features"]
    entry: [load_model] raises the [KeyError] of that key, but only after
    it has stored the bundle, so the service starts with this bundle
    loaded, and every later call of [health_check] raises the same
    [KeyError]. *)
Theorem bundle_without_feature_count_breaks_health_check
    (here : string) (fs : FS) (g : globals) (f : file) (d : gmap string pyval) :
  fs !! MODEL_PATH here = Some f →
  readable f = true →
  pickle_load (data f) = Ok (PkDict d) →
  d ≠ ∅ →
  d !! "features" = None →
  (load_model here fs g).1 = Raise (key_error "features")
  ∧ model_data (startup_event here fs g) = PkDict d
  ∧ ∀ now, health_check (startup_event here fs g) now
           = Raise (key_error "features").
Proof.
  intros Hf Hr Hp Hd Hkey. unfold startup_event, load_model, open_rb.
  rewrite bool_decide_eq_true_2 by (rewrite Hf; eauto).
  rewrite Hf, Hr. unfold mbind, result_bind. simpl. rewrite Hp. simpl.
  rewrite Hkey. simpl. split_and!; [done..|].
  intros now. unfold health_check, mbind, result_bind. simpl.
  rewrite bool_decide_eq_false_2 by done. simpl. by rewrite Hkey.
Qed.

(** X22.  After a start-up that found no model file, [health_check]
    answers: the model is not loaded, there are no features and no classes,
    and the path where the model was looked for is reported. *)
Theorem health_check_after_failed_startup
    (here : string) (fs : FS) (now : float) :
  fs !! MODEL_PATH here = None →
  health_check (startup_event here fs initial_globals) now
  = Ok {| h_status := "ok";
          h_service := "Python ML Service - Anti-Overfitting Model";
          h_model_loaded := false;
          h_model_path := Some (MODEL_PATH here);
          h_features := None;
          h_classes := None;
          h_timestamp := now |}.
Proof.
  intros Hmissing. unfold startup_event, load_model.
  rewrite bool_decide_eq_false_2 by (rewrite Hmissing; by intros [? ?]).
  done.
Qed.

End SecondServiceStartup.

(** An MP3 upload on a host whose decoder refuses it: status 400. *)
Lemma second_service_answers_undecodable_upload_with_400_witness :
  (@Enhanced.predict_mood (Sample.host true true) Sample.librosa Sample.numpy
     Sample.python Sample.pydantic Sample.enhanced_bundle
     (App.Upload (Some "audio/mpeg") "song.mp3" (data Sample.mp3_file)) ∅).1
  = Raise (Exn (HTTPException 400) "Feature extraction failed" None).
Proof.
  apply (@second_service_answers_undecodable_upload_with_400
           (Sample.host true true) Sample.librosa Sample.numpy
           Sample.python Sample.pydantic); reflexivity.
Defined.

(** A loaded model whose scaler is missing: the [KeyError] becomes status
    500, an [HTTPException]. *)
Lemma second_service_raises_only_http_errors_witness :
  (@Enhanced.predict_mood (Sample.host true true) Sample.librosa Sample.numpy
     Sample.python Sample.pydantic (PkDict ∅)
     (App.Upload (Some "audio/wav") "song.wav" (data Sample.wav_file)) ∅).1
  = Raise (Exn (HTTPException 500) "Prediction failed: 'scaler'" None)
  ∧ ∃ status,
      exn_kind_of (Exn (HTTPException 500) "Prediction failed: 'scaler'" None)
      = HTTPException status.
Proof.
  assert (Hrun :
    (@Enhanced.predict_mood (Sample.host true true) Sample.librosa Sample.numpy
       Sample.python Sample.pydantic (PkDict ∅)
       (App.Upload (Some "audio/wav") "song.wav" (data Sample.wav_file)) ∅).1
    = Raise (Exn (HTTPException 500) "Prediction failed: 'scaler'" None))
    by (vm_compute; reflexivity).
  split; [exact Hrun|].
  exact (@second_service_raises_only_http_errors (Sample.host true true)
           Sample.librosa Sample.numpy Sample.python Sample.pydantic
           _ _ _ _ Hrun).
Defined.

(** A WAV upload served from the sample bundle: the mood is the class with
    the largest probability, one half. *)
Lemma second_service_response_witness :
  ∃ response,
    (@Enhanced.predict_mood (Sample.host true true) Sample.librosa Sample.numpy
       Sample.python Sample.pydantic Sample.enhanced_bundle
       (App.Upload (Some "audio/wav") "song.wav" (data Sample.wav_file)) ∅).1
    = Ok response
    ∧ Enhanced.r_mood response = "energetic"
    ∧ Enhanced.r_confidence response = 0.5%float
    ∧ length (Enhanced.r_audio_features response) = 15%nat.
Proof.
  eassert (Hrun :
    @Enhanced.predict_mood (Sample.host true true) Sample.librosa Sample.numpy
      Sample.python Sample.pydantic Sample.enhanced_bundle
      (App.Upload (Some "audio/wav") "song.wav" (data Sample.wav_file)) ∅
    = (Ok _, _)) by (vm_compute; reflexivity).
  eexists. split; [by rewrite Hrun|].
  split; [reflexivity|]. split; [reflexivity|].
  destruct (@second_service_response (Sample.host true true) Sample.librosa
              Sample.numpy Sample.python Sample.pydantic _ _ _ _ _ Hrun)
    as (? & ? & ? & ? & ? & ? & ? & ? & ? & Hfacts).
  apply Hfacts.
Defined.

(** With no file at all the service starts, and refuses a WAV upload. *)
Lemma second_service_starts_without_model_witness :
  Enhanced.model_data
    (@Enhanced.startup_event (Sample.pickle Sample.enhanced_bundle)
       Sample.python "app" ∅ Enhanced.initial_globals) = Enhanced.py_None
  ∧ is_ok
      (@Enhanced.predict_mood (Sample.host true true) Sample.librosa
         Sample.numpy Sample.python Sample.pydantic
         (Enhanced.model_data
            (@Enhanced.startup_event (Sample.pickle Sample.enhanced_bundle)
               Sample.python "app" ∅ Enhanced.initial_globals))
         (App.Upload (Some "audio/wav") "song.wav" (data Sample.wav_file)) ∅).1
    = false.
Proof.
  destruct (@second_service_starts_without_model (Sample.host true true)
              Sample.librosa Sample.numpy (Sample.pickle Sample.enhanced_bundle)
              Sample.python Sample.pydantic "app" ∅ (lookup_empty _))
    as (Hdata & _ & Hfails).
  split; [exact Hdata|apply Hfails].
Defined.

(** The bundle of the first service has no ["features"] entry: the second
    service keeps it and its health check fails. *)
Lemma bundle_without_feature_count_breaks_health_check_witness :
  Enhanced.model_data
    (@Enhanced.startup_event
       (Sample.pickle (Sample.bundle_of Sample.four_labels PNone PNone))
       Sample.python "app" {[ MODEL_PATH "app" := File true [] ]}
       Enhanced.initial_globals)
  = Sample.bundle_of Sample.four_labels PNone PNone
  ∧ is_ok
      (@Enhanced.health_check Sample.python
         (@Enhanced.startup_event
            (Sample.pickle (Sample.bundle_of Sample.four_labels PNone PNone))
            Sample.python "app" {[ MODEL_PATH "app" := File true [] ]}
            Enhanced.initial_globals)
         0%float) = false.
Proof.
  edestruct (@bundle_without_feature_count_breaks_health_check
               (Sample.pickle (Sample.bundle_of Sample.four_labels PNone PNone))
               Sample.python "app" {[ MODEL_PATH "app" := File true [] ]}
               Enhanced.initial_globals)
    as (_ & Hdata & Hhealth);
    [apply lookup_singleton_eq|reflexivity|reflexivity| |reflexivity|].
  { intros Hempty. apply (f_equal (λ m, m !! "scaler")) in Hempty.
    vm_compute in Hempty. discriminate Hempty. }
  split; [exact Hdata|]. by rewrite Hhealth.
Defined.

(** The health check of a service started in an empty directory answers,
    and says that no model is loaded. *)
Lemma health_check_after_failed_startup_witness :
  Enhanced.h_model_loaded <$>
    match @Enhanced.health_check Sample.python
            (@Enhanced.startup_event (Sample.pickle Sample.enhanced_bundle)
               Sample.python "app" ∅ Enhanced.initial_globals) 1%float
    with
    | Ok h => Some h
    | Raise _ => None
    end
  = Some false.
Proof.
  rewrite (@health_check_after_failed_startup
             (Sample.pickle Sample.enhanced_bundle) Sample.python "app" ∅
             1%float (lookup_empty _)).
  reflexivity.
Defined.

(** The response to a WAV upload lists the four classes of the bundle. *)
Lemma second_service_percentages_cover_classes_witness :
  ∃ response,
    (@Enhanced.predict_mood (Sample.host true true) Sample.librosa Sample.numpy
       Sample.python Sample.pydantic Sample.enhanced_bundle
       (App.Upload (Some "audio/wav") "song.wav" (data Sample.wav_file)) ∅).1
    = Ok response
    ∧ (Enhanced.r_mood_percentages response).*1
      = [LStr "calm"; LStr "energetic"; LStr "happy"; LStr "sad"]
    ∧ ∃ items,
        (length items ≤ 4)%nat
        ∧ ∀ k, k ∈ (Enhanced.r_mood_percentages response).*1 ↔ k ∈ items.
Proof.
  eassert (Hrun :
    @Enhanced.predict_mood (Sample.host true true) Sample.librosa Sample.numpy
      Sample.python Sample.pydantic Sample.enhanced_bundle
      (App.Upload (Some "audio/wav") "song.wav" (data Sample.wav_file)) ∅
    = (Ok _, _)) by (vm_compute; reflexivity).
  eexists. split; [by rewrite Hrun|]. split; [reflexivity|].
  destruct (@second_service_percentages_cover_classes (Sample.host true true)
              Sample.librosa Sample.numpy Sample.python Sample.pydantic
              _ _ _ _ _ Hrun)
    as (d & c & classes & x & proba & mood_probs & items
        & Hmd & Hmodel & _ & Hproba & Hrow & _ & Hlen & Hkeys).
  exists items. split; [|exact Hkeys].
  injection Hmd as <-. vm_compute in Hmodel. injection Hmodel as <-.
  simpl in Hproba. injection Hproba as <-.
  simpl in Hrow. injection Hrow as <-. exact Hlen.
Defined.
